(** * discord-webfic-searcher: a shallow embedding of [webfic_searcher.py]

    The development follows the layout of the Python module:
    the settings store (the SQL statements and [_setup_db], [_query], [_add],
    [_drop], [_clear]), the link detector ([STORY_WEBSITE_STORE],
    [STORY_WEBSITE_REGEX]), the card builders ([create_*_embed],
    [ff_embed_factory]), the paginated view ([AO3SeriesView]) and the
    resolution engine of [WebficSearcherBot].

    Conventions.
    - A Python [str] is a sequence of code points: [pystr := list N].
      [len] is the length of that list, as Python's [len].
    - A Python [int] is a [Z].
    - A call that may raise returns a [result]; stateful code runs in the
      monad [M] over the [world] (database, clock, memoisation caches and the
      ordered trace of provider calls, log records and sent messages).
      State changes made before an exception are kept, as in Python. *)

From Stdlib Require Import ZArith List Lia String Ascii DecimalString Sorted.
From stdpp Require Import base option list gmap strings.

Open Scope Z_scope.

(** ** Python values shared by all components *)

Abbreviation pystr := (list N).

(** An ASCII literal as a Python string. *)
Definition py (s : string) : pystr :=
  map N_of_ascii (list_ascii_of_string s).

Definition len {A} (l : list A) : Z := Z.of_nat (length l).

(** The exceptions that the module's code can meet. [SQLError] and
    [BindingsError] are apsw's; the three provider failures are the
    exception roots of the ao3, fichub_api and atlas_api packages;
    [OtherError] stands for anything else a client may raise. *)
Inductive exn :=
| IndexError
| ValueError
| KeyError
| SQLError
| BindingsError
| TypeError
| AO3Exception
| FicHubException
| AtlasException
| OtherError.

Global Instance exn_eq_dec : EqDecision exn.
Proof. solve_decision. Defined.

Inductive result (A : Type) :=
| Ok (a : A)
| Raise (e : exn).
Arguments Ok {A} a.
Arguments Raise {A} e.

(** Python indexing [l[i]]: a negative index counts from the end, an index
    out of range raises [IndexError]. *)
Definition py_index {A} (l : list A) (i : Z) : result A :=
  let j := if i <? 0 then len l + i else i in
  if j <? 0 then Raise IndexError
  else match nth_error l (Z.to_nat j) with
       | Some x => Ok x
       | None => Raise IndexError
       end.

(** ** The settings store *)

Record AutoresponseLocation := {
  guild_id : Z;
  channel_id : Z;
}.

Global Instance AutoresponseLocation_eq_dec : EqDecision AutoresponseLocation.
Proof. solve_decision. Defined.

(** The database is its catalogue: table name to rows. The settings table
    is declared [WITHOUT ROWID] with primary key [(guild_id, channel_id)],
    so its rows are kept without duplicates in primary-key order. *)
Abbreviation database := (gmap string (list AutoresponseLocation)).

(** The shapes of SQL statement the module uses, each on a named table. *)
Inductive statement :=
| CreateTableIfNotExists (t : string)
| SelectAll (t : string)
| SelectWhereGuild (t : string)
| InsertOnConflictDoNothing (t : string)
| DeleteWhereChannel (t : string)
| DeleteWhereGuild (t : string).

Definition INITIALIZATION_STATEMENT : statement :=
  CreateTableIfNotExists "webfic_autoresponse_settings".

Definition SELECT_ALL_STATEMENT : statement :=
  SelectAll "webfic_autoresponse_settings".

Definition SELECT_BY_GUILD_STATEMENT : statement :=
  SelectWhereGuild "webfic_autoresponse_settings".

Definition INSERT_CHANNEL_STATEMENT : statement :=
  InsertOnConflictDoNothing "webfic_autoresponse_settings".

Definition REMOVE_GUILD_CHANNEL_STATEMENT : statement :=
  DeleteWhereChannel "fanfic_autoresponse_settings".

Definition CLEAR_GUILD_CHANNELS_STATEMENT : statement :=
  DeleteWhereGuild "fanfic_autoresponse_settings".

Definition statement_table (s : statement) : string :=
  match s with
  | CreateTableIfNotExists t | SelectAll t | SelectWhereGuild t
  | InsertOnConflictDoNothing t | DeleteWhereChannel t | DeleteWhereGuild t => t
  end.

(** Number of [?] placeholders of a statement. *)
Definition statement_placeholders (s : statement) : nat :=
  match s with
  | CreateTableIfNotExists _ | SelectAll _ => 0
  | SelectWhereGuild _ | DeleteWhereChannel _ | DeleteWhereGuild _ => 1
  | InsertOnConflictDoNothing _ => 2
  end.

Definition location_ltb (a b : AutoresponseLocation) : bool :=
  (guild_id a <? guild_id b)
  || ((guild_id a =? guild_id b) && (channel_id a <? channel_id b)).

(** Insertion in primary-key order; a row already present is left alone
    ([ON CONFLICT ... DO NOTHING]). *)
Fixpoint insert_row (r : AutoresponseLocation) (rows : list AutoresponseLocation)
  : list AutoresponseLocation :=
  match rows with
  | [] => [r]
  | x :: rest =>
      if bool_decide (r = x) then rows
      else if location_ltb r x then r :: rows
      else x :: insert_row r rest
  end.

(** Compiling a statement fails when the table it names does not exist
    ("no such table"); [CREATE TABLE IF NOT EXISTS] always compiles. *)
Definition prepare (db : database) (s : statement) : result unit :=
  match s with
  | CreateTableIfNotExists _ => Ok tt
  | _ => match db !! statement_table s with
         | Some _ => Ok tt
         | None => Raise SQLError
         end
  end.

(** Binding and running a compiled statement: the number of bindings must
    equal the number of placeholders. Returns the rows produced. *)
Definition run_statement (db : database) (s : statement) (bindings : list Z)
  : result (list AutoresponseLocation) * database :=
  if negb (Nat.eqb (length bindings) (statement_placeholders s))
  then (Raise BindingsError, db)
  else
    let rows := default [] (db !! statement_table s) in
    match s, bindings with
    | CreateTableIfNotExists t, _ =>
        (Ok [], match db !! t with Some _ => db | None => <[t := []]> db end)
    | SelectAll _, _ => (Ok rows, db)
    | SelectWhereGuild _, [g] =>
        (Ok (filter (fun r => guild_id r = g) rows), db)
    | InsertOnConflictDoNothing t, [g; c] =>
        (Ok [], <[t := insert_row {| guild_id := g; channel_id := c |} rows]> db)
    | DeleteWhereChannel t, [c] =>
        (Ok [], <[t := filter (fun r => channel_id r ≠ c) rows]> db)
    | DeleteWhereGuild t, [g] =>
        (Ok [], <[t := filter (fun r => guild_id r ≠ g) rows]> db)
    | _, _ => (Raise BindingsError, db)
    end.

(** [cursor.execute(statement, bindings)]. *)
Definition execute (db : database) (s : statement) (bindings : list Z)
  : result (list AutoresponseLocation) * database :=
  match prepare db s with
  | Raise e => (Raise e, db)
  | Ok _ => run_statement db s bindings
  end.

(** A named tuple binds as the sequence of its fields. *)
Definition location_bindings (l : AutoresponseLocation) : list Z :=
  [guild_id l; channel_id l].

Fixpoint run_many (db : database) (s : statement) (seq : list (list Z))
  : result unit * database :=
  match seq with
  | [] => (Ok tt, db)
  | b :: rest =>
      match run_statement db s b with
      | (Raise e, db') => (Raise e, db')
      | (Ok _, db') => run_many db' s rest
      end
  end.

(** [cursor.executemany(statement, sequence)]: an empty sequence returns
    at once, before the statement is compiled; otherwise the statement is
    compiled once and run for each element. *)
Definition executemany (db : database) (s : statement) (seq : list (list Z))
  : result unit * database :=
  match seq with
  | [] => (Ok tt, db)
  | _ :: _ =>
      match prepare db s with
      | Raise e => (Raise e, db)
      | Ok _ => run_many db s seq
      end
  end.

(** [with conn:] opens a transaction: committed when the body returns,
    rolled back (and the exception re-raised) when it raises. *)
Definition with_conn {A} (db : database) (body : database -> result A * database)
  : result A * database :=
  match body db with
  | (Ok v, db') => (Ok v, db')
  | (Raise e, _) => (Raise e, db)
  end.

Definition _setup_db (db : database) : result unit * database :=
  with_conn db (fun db =>
    match execute db INITIALIZATION_STATEMENT [] with
    | (Ok _, db') => (Ok tt, db')
    | (Raise e, db') => (Raise e, db')
    end).

Definition _query (db : database) (query_str : statement) (params : list Z)
  : result (list AutoresponseLocation) * database :=
  with_conn db (fun db => execute db query_str params).

Definition _add (db : database) (locations : list AutoresponseLocation)
  : result (list AutoresponseLocation) * database :=
  with_conn db (fun db =>
    match executemany db INSERT_CHANNEL_STATEMENT (map location_bindings locations) with
    | (Raise e, db') => (Raise e, db')
    | (Ok _, db') =>
        match py_index locations 0 with
        | Raise e => (Raise e, db')
        | Ok first => execute db' SELECT_BY_GUILD_STATEMENT [guild_id first]
        end
    end).

Definition _drop (db : database) (locations : list AutoresponseLocation)
  : result (list AutoresponseLocation) * database :=
  with_conn db (fun db =>
    match executemany db REMOVE_GUILD_CHANNEL_STATEMENT (map location_bindings locations) with
    | (Raise e, db') => (Raise e, db')
    | (Ok _, db') =>
        match py_index locations 0 with
        | Raise e => (Raise e, db')
        | Ok first => execute db' SELECT_BY_GUILD_STATEMENT [guild_id first]
        end
    end).

Definition _clear (db : database) (guild : Z) : result unit * database :=
  with_conn db (fun db =>
    match execute db CLEAR_GUILD_CHANNELS_STATEMENT [guild] with
    | (Ok _, db') => (Ok tt, db')
    | (Raise e, db') => (Raise e, db')
    end).

(** The store as the bot finds it after [setup_hook] on a new database
    file: only the table of [INITIALIZATION_STATEMENT] exists. *)
Definition fresh_store : database := (_setup_db ∅).2.

(** ** Text *)

(** [\d], taken on the ASCII digits. *)
Definition is_digit (c : N) : bool := ((48 <=? c) && (c <=? 57))%N.

(** White space as [str.split], [str.strip] and [\s] see it. *)
Definition is_space (c : N) : bool :=
  (((9 <=? c) && (c <=? 13)) || ((28 <=? c) && (c <=? 32))
   || (c =? 133) || (c =? 160) || (c =? 5760)
   || ((8192 <=? c) && (c <=? 8202)) || (c =? 8232) || (c =? 8233)
   || (c =? 8239) || (c =? 8287) || (c =? 12288))%N.

Fixpoint starts_with (p s : pystr) : bool :=
  match p, s with
  | [], _ => true
  | a :: p', b :: s' => (a =? b)%N && starts_with p' s'
  | _ :: _, [] => false
  end.

(** [sub in s]. *)
Fixpoint contains (sub s : pystr) : bool :=
  starts_with sub s ||
  match s with
  | [] => false
  | _ :: s' => contains sub s'
  end.

(** [sep.join(parts)]. *)
Fixpoint join (sep : pystr) (parts : list pystr) : pystr :=
  match parts with
  | [] => []
  | [x] => x
  | x :: rest => x ++ sep ++ join sep rest
  end.

(** [int(s)] for a string of digits. *)
Definition int_of_digits (s : pystr) : Z :=
  fold_left (fun acc c => acc * 10 + (Z.of_N c - 48)) s 0.

(** [str(n)] for an integer. *)
Definition str_of_int (n : Z) : pystr :=
  py (NilZero.string_of_int (Z.to_int n)).

(** Thousands separators, from the right: the digits of [f"{n:,d}"]. *)
Fixpoint group_thousands (rev_digits : pystr) (k : nat) : pystr :=
  match rev_digits with
  | [] => []
  | d :: rest =>
      match k, rest with
      | 2%nat, _ :: _ => d :: 44%N :: group_thousands rest 0
      | _, _ => d :: group_thousands rest (S k)
      end
  end.

(** [f"{n:,d}"]. *)
Definition format_commas (n : Z) : pystr :=
  let digits := str_of_int (Z.abs n) in
  (if n <? 0 then py "-" else []) ++ rev (group_thousands (rev digits) 0).

Definition to_upper (c : N) : N := (if (97 <=? c) && (c <=? 122) then c - 32 else c)%N.
Definition to_lower (c : N) : N := (if (65 <=? c) && (c <=? 90) then c + 32 else c)%N.

(** [s.capitalize()], with the case mapping of the ASCII letters. *)
Definition capitalize (s : pystr) : pystr :=
  match s with
  | [] => []
  | c :: rest => to_upper c :: map to_lower rest
  end.

(** ** Regular expressions

    The fragment of [re] that the module's patterns use, with the matching
    order of [re]: alternatives are tried left to right, repetitions are
    greedy and give back one character at a time. *)

Inductive charclass :=
| Digit      (* \d *)
| NonSpace.  (* \S *)

Definition in_class (cls : charclass) (c : N) : bool :=
  match cls with
  | Digit => is_digit c
  | NonSpace => negb (is_space c)
  end.

Inductive regex :=
| Eps
| Lit (s : pystr)
| Seq (r1 r2 : regex)
| Alt (r1 r2 : regex)
| Plus (cls : charclass)
| Star (cls : charclass)
| Group (name : string) (r : regex).

(** Named groups in the order in which they closed, most recent first. *)
Abbreviation captures := (list (string * pystr)).

(** Greedy repetition of a class: the longest run first, shorter ones on
    failure of the continuation; [need] is the minimal count still due. *)
Fixpoint greedy {X} (cls : charclass) (need : nat) (s : pystr)
    (k : pystr -> option X) : option X :=
  let stop := match need with O => k s | S _ => None end in
  match s with
  | c :: s' =>
      if in_class cls c then
        match greedy cls (Nat.pred need) s' k with
        | Some x => Some x
        | None => stop
        end
      else stop
  | [] => stop
  end.

Fixpoint match_re {X} (r : regex) (s : pystr) (caps : captures)
    (k : pystr -> captures -> option X) : option X :=
  match r with
  | Eps => k s caps
  | Lit l => if starts_with l s then k (drop (length l) s) caps else None
  | Seq a b => match_re a s caps (fun s' caps' => match_re b s' caps' k)
  | Alt a b =>
      match match_re a s caps k with
      | Some x => Some x
      | None => match_re b s caps k
      end
  | Plus cls => greedy cls 1 s (fun s' => k s' caps)
  | Star cls => greedy cls 0 s (fun s' => k s' caps)
  | Group name a =>
      match_re a s caps (fun s' caps' =>
        k s' ((name, take (length s - length s') s) :: caps'))
  end.

(** A match object: [group(0)], the named groups, and where the match
    ends (as the text that follows it). *)
Record re_match := {
  group0 : pystr;
  groups : captures;
  after : pystr;
}.

(** [match.group(name)] for a named group; [None] when it did not take part. *)
Definition group (m : re_match) (name : string) : option pystr :=
  snd <$> find (fun p => bool_decide (fst p = name)) (groups m).

(** [match.lastgroup]. *)
Definition lastgroup (m : re_match) : option string :=
  fst <$> head (groups m).

(** A match that starts at the first character of [s]. *)
Definition match_here (r : regex) (s : pystr) : option re_match :=
  match_re r s [] (fun s' caps =>
    Some {| group0 := take (length s - length s') s; groups := caps; after := s' |}).

(** [re.search(r, s)]: the leftmost match. *)
Fixpoint re_search (r : regex) (s : pystr) : option re_match :=
  match match_here r s with
  | Some m => Some m
  | None =>
      match s with
      | [] => None
      | _ :: s' => re_search r s'
      end
  end.

(** [re.finditer(r, s)]: the successive leftmost matches, each search
    resuming where the previous match ended. [skip] counts the characters
    of the current match still to be passed over. *)
Fixpoint finditer_from (r : regex) (skip : nat) (s : pystr) : list re_match :=
  match skip with
  | S n =>
      match s with
      | [] => []
      | _ :: s' => finditer_from r n s'
      end
  | O =>
      match match_here r s with
      | Some m =>
          m :: match s with
               | [] => []
               | _ :: s' => finditer_from r (Nat.pred (length (group0 m))) s'
               end
      | None =>
          match s with
          | [] => []
          | _ :: s' => finditer_from r 0 s'
          end
      end
  end.

Definition finditer (r : regex) (s : pystr) : list re_match := finditer_from r 0 s.

(** [r1|r2|...|rn]. *)
Fixpoint alternation (r : regex) (rs : list regex) : regex :=
  match rs with
  | [] => r
  | r' :: rest => Alt r (alternation r' rest)
  end.

Definition seq_of (rs : list regex) : regex := fold_right Seq Eps rs.

(** ** [textwrap.shorten]

    [textwrap_shorten] is a reference implementation, with the chunks of
    the text cut at white space: the guards of [TextWrapper._wrap_chunks],
    the filling of one line, and the loop that places the placeholder. *)

(** [s.lstrip()]. *)
Fixpoint lstrip (s : pystr) : pystr :=
  match s with
  | c :: s' => if is_space c then lstrip s' else s
  | [] => []
  end.

(** [text.split()]: the maximal runs of characters that are not white space. *)
Fixpoint split_words (s : pystr) (cur : pystr) : list pystr :=
  match s with
  | [] => match cur with [] => [] | _ => [rev cur] end
  | c :: s' =>
      if is_space c then
        match cur with
        | [] => split_words s' []
        | _ => rev cur :: split_words s' []
        end
      else split_words s' (c :: cur)
  end.

(** The chunks of the normalised text: words and the single blanks
    between them. *)
Fixpoint chunks_of (words : list pystr) : list pystr :=
  match words with
  | [] => []
  | [w] => [w]
  | w :: rest => w :: [32%N] :: chunks_of rest
  end.

Definition is_blank (chunk : pystr) : bool := forallb is_space chunk.

(** The chunks that fit on the line, most recent first, and those left. *)
Fixpoint fill_line (chunks : list pystr) (cur_line : list pystr) (cur_len width : Z)
  : list pystr * Z * list pystr :=
  match chunks with
  | c :: rest =>
      if cur_len + len c <=? width
      then fill_line rest (c :: cur_line) (cur_len + len c) width
      else (cur_line, cur_len, chunks)
  | [] => (cur_line, cur_len, [])
  end.

(** The loop that makes room for the placeholder: drop chunks from the end
    of the line until it ends in a word and the placeholder fits. *)
Fixpoint place_placeholder (cur_line : list pystr) (cur_len width : Z)
    (placeholder : pystr) : pystr :=
  match cur_line with
  | c :: rest =>
      if negb (is_blank c) && (cur_len + len placeholder <=? width)
      then concat (rev cur_line) ++ placeholder
      else place_placeholder rest (cur_len - len c) width placeholder
  | [] => lstrip placeholder
  end.

Definition textwrap_shorten (text : pystr) (width : Z) (placeholder : pystr)
  : result pystr :=
  if width <=? 0 then Raise ValueError
  else if width <? len (lstrip placeholder) then Raise ValueError
  else
    let '(cur_line, cur_len, chunks) :=
      fill_line (chunks_of (split_words text [])) [] 0 width in
    (* a chunk longer than the whole line is broken to fill the line *)
    let '(cur_line, cur_len, chunks) :=
      match chunks with
      | c :: rest =>
          if width <? len c
          then let n := Z.to_nat (width - cur_len) in
               (take n c :: cur_line, cur_len + len (take n c), drop n c :: rest)
          else (cur_line, cur_len, chunks)
      | [] => (cur_line, cur_len, chunks)
      end in
    (* white space at the end of the line is dropped *)
    let '(cur_line, cur_len) :=
      match cur_line with
      | c :: rest => if is_blank c then (rest, cur_len - len c) else (cur_line, cur_len)
      | [] => (cur_line, cur_len)
      end in
    match cur_line with
    | [] => Ok []
    | _ :: _ =>
        match chunks with
        | [] => Ok (concat (rev cur_line))
        | _ :: _ => Ok (place_placeholder cur_line cur_len width placeholder)
        end
    end.

(** ** The link detector: the registry of story sites *)

Record StoryWebsite := {
  name : pystr;
  acronym : string;
  story_regex : regex;
  icon_url : pystr;
}.

(** [(?:www\.|m\.|)] and [(?:www\.|)]. *)
Definition www_or_m : regex := Alt (Lit (py "www.")) (Alt (Lit (py "m.")) Eps).
Definition www_opt : regex := Alt (Lit (py "www.")) Eps.

Definition FFN_site : StoryWebsite := {|
  name := py "FanFiction.Net";
  acronym := "FFN";
  story_regex :=
    seq_of [www_or_m; Lit (py "fanfiction.net/s/"); Group "ffn_id" (Plus Digit)];
  icon_url := py "https://www.fanfiction.net/static/icons3/ff-icon-128.png";
|}.

Definition FP_site : StoryWebsite := {|
  name := py "FictionPress";
  acronym := "FP";
  story_regex := seq_of [www_or_m; Lit (py "fictionpress.com/s/"); Plus Digit];
  icon_url := py "https://www.fanfiction.net/static/icons3/ff-icon-128.png";
|}.

Definition SB_site : StoryWebsite := {|
  name := py "SpaceBattles";
  acronym := "SB";
  story_regex := seq_of [Lit (py "forums.spacebattles.com/threads/"); Star NonSpace];
  icon_url :=
    py "https://forums.spacebattles.com/data/svg/2/1/1682578744/2022_favicon_192x192.png";
|}.

Definition SV_site : StoryWebsite := {|
  name := py "Sufficient Velocity";
  acronym := "SV";
  story_regex := seq_of [Lit (py "forums.sufficientvelocity.com/threads/"); Star NonSpace];
  icon_url := py "https://forums.sufficientvelocity.com/favicon-96x96.png?v=69wyvmQdJN";
|}.

Definition QQ_site : StoryWebsite := {|
  name := py "Questionable Questing";
  acronym := "QQ";
  story_regex := seq_of [Lit (py "forums.questionablequesting.com/threads/"); Star NonSpace];
  icon_url := py "https://forums.questionablequesting.com/favicon.ico";
|}.

Definition SIYE_site : StoryWebsite := {|
  name := py "Sink Into Your Eyes";
  acronym := "SIYE";
  story_regex :=
    seq_of [www_opt; Lit (py "siye.co.uk/"); Alt (Lit (py "siye/")) Eps;
            Lit (py "viewstory.php?sid="); Plus Digit];
  icon_url := py "https://www.siye.co.uk/siye/favicon.ico";
|}.

(** ** Story records, as the provider packages deliver them *)

Inductive month :=
| January | February | March | April | May | June
| July | August | September | October | November | December.

Record datetime := {
  year : Z;
  month_of : month;
  day : Z;
}.

(** An AO3 user; the name may be absent. *)
Record ao3_user := {
  user_name : option pystr;
}.

Record ao3_work := {
  work_title : pystr;
  work_url : pystr;
  work_authors : list ao3_user;
  work_date_updated : option datetime;
  work_is_complete : bool;
  work_fandoms : list pystr;
  work_categories : list pystr;
  work_characters : list pystr;
  work_ncomments : Z;
  work_nkudos : Z;
  work_nbookmarks : Z;
  work_nhits : Z;
  work_nwords : Z;
  work_nchapters : Z;
  work_rating : pystr;
  work_summary : pystr;
}.

Record ao3_series := {
  series_name : pystr;
  series_url : pystr;
  series_creators : list ao3_user;
  series_date_updated : option datetime;
  series_is_complete : bool;
  series_description : pystr;
  works_list : list ao3_work;
  series_nwords : Z;
  series_nworks : Z;
}.

Record atlas_story := {
  atlas_title : pystr;
  atlas_url : pystr;
  atlas_description : pystr;
  atlas_author_name : pystr;
  atlas_author_url : pystr;
  atlas_updated : option datetime;
  atlas_published : datetime;
  atlas_is_complete : bool;
  atlas_fandoms : list pystr;
  atlas_genres : list pystr;
  atlas_characters : list pystr;
  atlas_reviews : Z;
  atlas_favorites : Z;
  atlas_follows : Z;
  atlas_words : Z;
  atlas_chapters : Z;
  atlas_rating : pystr;
}.

Record fichub_story := {
  fichub_title : pystr;
  fichub_url : pystr;
  fichub_description : pystr;
  fichub_author_name : pystr;
  fichub_author_url : pystr;
  fichub_updated : datetime;
  fichub_status : pystr;
  fichub_fandoms : list pystr;
  fichub_more_meta : gmap string (list pystr);
  fichub_characters : list pystr;
  fichub_stats : gmap string Z;
  fichub_words : Z;
  fichub_chapters : Z;
  fichub_rating : pystr;
}.

(** [StoryDataType]: the value is tagged with its Python class. *)
Inductive StoryDataType :=
| AtlasStory (story : atlas_story)
| FicHubStory (story : fichub_story)
| AO3Work (work : ao3_work)
| AO3Series (series : ao3_series).

Global Instance month_eq_dec : EqDecision month.
Proof. solve_decision. Defined.
Global Instance datetime_eq_dec : EqDecision datetime.
Proof. solve_decision. Defined.
Global Instance ao3_user_eq_dec : EqDecision ao3_user.
Proof. solve_decision. Defined.
Global Instance ao3_work_eq_dec : EqDecision ao3_work.
Proof. solve_decision. Defined.
Global Instance ao3_series_eq_dec : EqDecision ao3_series.
Proof. solve_decision. Defined.
Global Instance atlas_story_eq_dec : EqDecision atlas_story.
Proof. solve_decision. Defined.
Global Instance fichub_story_eq_dec : EqDecision fichub_story.
Proof. solve_decision. Defined.

(** ** Cards: [discord.Embed] *)

Record EmbedField := {
  field_name : pystr;
  field_value : pystr;
  field_inline : bool;
}.

Record EmbedAuthor := {
  author_name : pystr;
  author_url : pystr;
  author_icon_url : option pystr;
}.

(** The class of the card object, as [isinstance] sees it. *)
Inductive EmbedClass :=
| PlainEmbed
| NotFoundEmbedClass.

Record Embed := {
  embed_class : EmbedClass;
  title : option pystr;
  url : option pystr;
  description : option pystr;
  timestamp : option Z;
  author : option EmbedAuthor;
  fields : list EmbedField;
  footer : option pystr;
}.

Global Instance EmbedField_eq_dec : EqDecision EmbedField.
Proof. solve_decision. Defined.
Global Instance EmbedAuthor_eq_dec : EqDecision EmbedAuthor.
Proof. solve_decision. Defined.
Global Instance EmbedClass_eq_dec : EqDecision EmbedClass.
Proof. solve_decision. Defined.
Global Instance Embed_eq_dec : EqDecision Embed.
Proof. solve_decision. Defined.

(** [len(embed)]: title, description, field names and values, footer
    text and author name. *)
Definition embed_len (e : Embed) : Z :=
  len (default [] (title e)) + len (default [] (description e))
  + fold_right (fun f acc => len (field_name f) + len (field_value f) + acc) 0 (fields e)
  + len (default [] (footer e))
  + len (default [] (author_name <$> author e)).

Definition set_description (e : Embed) (d : pystr) : Embed :=
  {| embed_class := embed_class e; title := title e; url := url e;
     description := Some d; timestamp := timestamp e; author := author e;
     fields := fields e; footer := footer e |}.


(** ** The world and the monad of the bot's code *)

Inductive event :=
| Call_ao3_get_series (id : Z)
| Call_ao3_get_work (id : Z)
| Call_ao3_search_works (any_field : pystr)
| Call_fichub_get_story_metadata (url : pystr)
| Call_atlas_get_story_metadata (id : Z)
| Call_atlas_get_bulk_metadata (title_ilike : pystr) (limit : Z)
| Log_exception (msg : pystr)
| Log_warning (msg : pystr) (err : exn)
| Typing (channel : Z)
| Channel_send (channel : Z) (e : Embed)
| Followup_send (e : Embed) (with_view : bool)
| Response_defer
| Response_send_message (msg : pystr)
| Response_edit_message (e : Embed).

Record world := {
  db_connection : database;
  clock : Z;
  cache_ao3_work : list (ao3_work * Embed);
  cache_ao3_series : list (ao3_series * Embed);
  cache_atlas : list (atlas_story * Embed);
  cache_fichub : list (fichub_story * Embed);
  trace : list event;
}.

Definition M (A : Type) : Type := world -> result A * world.

Definition ret {A} (a : A) : M A := fun w => (Ok a, w).

Definition raise {A} (e : exn) : M A := fun w => (Raise e, w).

Definition bind {A B} (c : M A) (k : A -> M B) : M B :=
  fun w =>
    match c w with
    | (Ok a, w') => k a w'
    | (Raise e, w') => (Raise e, w')
    end.

(** [try: c  except <handled>: h]. *)
Definition try_except {A} (c : M A) (handled : exn -> bool) (h : exn -> M A) : M A :=
  fun w =>
    match c w with
    | (Ok a, w') => (Ok a, w')
    | (Raise e, w') => if handled e then h e w' else (Raise e, w')
    end.

Definition lift {A} (r : result A) : M A := fun w => (r, w).

(** Record an observable action. *)
Definition emit (ev : event) : M unit :=
  fun w =>
    (Ok tt, {| db_connection := db_connection w; clock := clock w;
               cache_ao3_work := cache_ao3_work w; cache_ao3_series := cache_ao3_series w;
               cache_atlas := cache_atlas w; cache_fichub := cache_fichub w;
               trace := trace w ++ [ev] |}).

(** [discord.utils.utcnow()]. *)
Definition utcnow : M Z := fun w => (Ok (clock w), w).


Definition set_db (d : database) (w : world) : world :=
  {| db_connection := d; clock := clock w;
     cache_ao3_work := cache_ao3_work w; cache_ao3_series := cache_ao3_series w;
     cache_atlas := cache_atlas w; cache_fichub := cache_fichub w;
     trace := trace w |}.

Global Instance M_ret : MRet M := @ret.
Global Instance M_bind : MBind M := fun A B k c => bind c k.

(** The same sequencing for code that only raises. *)
Global Instance result_ret : MRet result := @Ok.
Global Instance result_bind : MBind result := fun A B k r =>
  match r with
  | Ok a => k a
  | Raise e => Raise e
  end.

(** Look a key up in a memoisation table. *)
Fixpoint cache_lookup {K} `{EqDecision K} (k : K) (table : list (K * Embed)) : option Embed :=
  match table with
  | [] => None
  | (k', e) :: rest => if bool_decide (k = k') then Some e else cache_lookup k rest
  end.

(** ** What the module imports

    [Packages]: the constant [ao3.utils.AO3_LOGO_URL] and the function
    [textwrap.shorten(text, width, placeholder=...)].
    [Clients]: the three provider clients and [atlas_api.extract_fic_id].
    A client answers with a value or raises; its answer may depend on
    everything that happened before the call. A lookup of one story may
    answer [None]. *)

Class Packages := {
  AO3_LOGO_URL : pystr;
  shorten : pystr -> Z -> pystr -> result pystr;
}.

Class Clients := {
  ao3_get_series : list event -> Z -> result (option ao3_series);
  ao3_get_work : list event -> Z -> result (option ao3_work);
  ao3_search_works : list event -> pystr -> result (list ao3_work);
  fichub_get_story_metadata : list event -> pystr -> result (option fichub_story);
  atlas_get_story_metadata : list event -> Z -> result (option atlas_story);
  atlas_get_bulk_metadata : list event -> pystr -> Z -> result (list atlas_story);
  extract_fic_id : pystr -> option Z;
}.

(** What the builders rely on from [textwrap.shorten]: the two guards of
    [TextWrapper._wrap_chunks] and the bound on the returned line. *)
Definition shorten_contract (packages : Packages) : Prop :=
  forall text width placeholder,
    match shorten text width placeholder with
    | Raise e => e = ValueError /\ (width <= 0 \/ width < len (lstrip placeholder))
    | Ok line => 0 < width /\ len (lstrip placeholder) <= width /\ len line <= width
    end.

Section Bot.

Context {packages : Packages} {clients : Clients}.

Definition AO3_site : StoryWebsite := {|
  name := py "Archive of Our Own";
  acronym := "AO3";
  story_regex :=
    seq_of [www_opt; Lit (py "archiveofourown.org/");
            Group "type" (Alt (Lit (py "works")) (Lit (py "series")));
            Lit (py "/"); Group "ao3_id" (Plus Digit)];
  icon_url := AO3_LOGO_URL;
|}.

(** The registry, in registration order. *)
Definition STORY_WEBSITE_STORE : list StoryWebsite :=
  [FFN_site; FP_site; AO3_site; SB_site; SV_site; QQ_site; SIYE_site].

(** The pattern text is the scheme prefix followed by the named groups
    joined with [|]; alternation binds loosest, so the optional scheme
    belongs to the first alternative only. *)
Definition STORY_WEBSITE_REGEX : regex :=
  let scheme := Alt (Lit (py "http://")) (Alt (Lit (py "https://")) Eps) in
  match map (fun site => Group (acronym site) (story_regex site)) STORY_WEBSITE_STORE with
  | [] => scheme
  | g :: rest => alternation (Seq scheme g) rest
  end.


(** ** The card builders *)

Definition month_name (m : month) : pystr :=
  py match m with
     | January => "January" | February => "February" | March => "March"
     | April => "April" | May => "May" | June => "June" | July => "July"
     | August => "August" | September => "September" | October => "October"
     | November => "November" | December => "December"
     end.

(** [d.strftime("%B %d, %Y")]: month name, day on two digits, year. *)
Definition strftime (d : datetime) : pystr :=
  month_name (month_of d) ++ py " "
  ++ (if day d <? 10 then py "0" else []) ++ str_of_int (day d)
  ++ py ", " ++ str_of_int (year d).

(** [str(x)] for an optional string. *)
Definition str_of_name (x : option pystr) : pystr := default (py "None") x.

(** The separator [" • "]. *)
Definition bullet : pystr := [32; 8226; 32]%N.

Definition SCROLL : pystr := [128220%N].
Definition OPEN_BOOK : pystr := [128214%N].
Definition BOOKMARK : pystr := [128278%N].
Definition BAR_CHART : pystr := [128202%N].
Definition BOOKS : pystr := [128218%N].

(** [embed.add_field(name=..., value=..., inline=...)] appends a field. *)
Definition add_field (name value : pystr) (inline : bool) (e : Embed) : Embed :=
  {| embed_class := embed_class e; title := title e; url := url e;
     description := description e; timestamp := timestamp e; author := author e;
     fields := fields e ++ [{| field_name := name; field_value := value;
                               field_inline := inline |}];
     footer := footer e |}.

Definition NotFoundEmbed : M Embed :=
  now ← utcnow;
  mret {| embed_class := NotFoundEmbedClass;
          title := Some (py "No Results");
          url := None;
          description := Some (py "No results found. You may need to edit your search.");
          timestamp := Some now;
          author := None; fields := []; footer := None |}.

(** The body of [create_ao3_work_embed], under the [functools.cache]
    decorator; [now] is the reading of [discord.utils.utcnow()]. *)
Definition create_ao3_work_embed_wrapped (now : Z) (work : ao3_work) : result Embed :=
  let updated :=
    match work_date_updated work with
    | Some d => strftime d ++ (if work_is_complete work then py " (Complete)" else [])
    | None => py "Unknown"
    end in
  let author_names :=
    join (py ", ") (map (fun a => str_of_name (user_name a)) (work_authors work)) in
  fandoms ← shorten (join (py ", ") (work_fandoms work)) 100 (py "...");
  categories ← shorten (join (py ", ") (work_categories work)) 100 (py "...");
  characters ← shorten (join (py ", ") (work_characters work)) 100 (py "...");
  let details := join bullet [fandoms; categories; characters] in
  let stats_str :=
    join bullet
      [py "**Comments:** " ++ format_commas (work_ncomments work);
       py "**Kudos:** " ++ format_commas (work_nkudos work);
       py "**Bookmarks:** " ++ format_commas (work_nbookmarks work);
       py "**Hits:** " ++ format_commas (work_nhits work)] in
  first_author ← py_index (work_authors work) 0;
  let author_url :=
    py "https://archiveofourown.org/users/" ++ str_of_name (user_name first_author) in
  let ao3_embed :=
    add_field (BAR_CHART ++ py " Stats") stats_str false
    (add_field (BOOKMARK ++ py " Rating: " ++ work_rating work) details false
    (add_field (OPEN_BOOK ++ py " Length")
       (format_commas (work_nwords work) ++ py " words in "
        ++ str_of_int (work_nchapters work) ++ py " chapter(s)") true
    (add_field (SCROLL ++ py " Last Updated") updated true
       {| embed_class := PlainEmbed;
          title := Some (work_title work);
          url := Some (work_url work);
          description := None;
          timestamp := Some now;
          author := Some {| author_name := author_names; author_url := author_url;
                            author_icon_url := Some (icon_url AO3_site) |};
          fields := [];
          footer := Some (py "A substitute for displaying AO3 information.") |}))) in
  descr ← shorten (work_summary work) (6000 - embed_len ao3_embed) (py "...");
  mret (set_description ao3_embed descr).

Definition create_ao3_series_embed_wrapped (now : Z) (series : ao3_series) : result Embed :=
  first_creator ← py_index (series_creators series) 0;
  let author_url :=
    py "https://archiveofourown.org/users/" ++ str_of_name (user_name first_creator) in
  let updated :=
    match series_date_updated series with
    | Some d => strftime d ++ (if series_is_complete series then py " (Complete)" else [])
    | None => py "Unknown"
    end in
  let author_names :=
    join (py ", ")
      (omap (fun creator =>
               match user_name creator with
               | Some (c :: n) => Some (c :: n)
               | _ => None
               end) (series_creators series)) in
  let work_links :=
    BOOKS ++ py " **Works:**" ++ [10%N]
    ++ join [10%N]
         (map (fun work => py "[" ++ work_title work ++ py "](" ++ work_url work ++ py ")")
              (works_list series)) in
  let ao3_embed :=
    add_field (OPEN_BOOK ++ py " Length")
       (format_commas (series_nwords series) ++ py " words in "
        ++ str_of_int (series_nworks series) ++ py " work(s)") true
    (add_field (SCROLL ++ py " Last Updated") updated true
       {| embed_class := PlainEmbed;
          title := Some (series_name series);
          url := Some (series_url series);
          description := Some work_links;
          timestamp := Some now;
          author := Some {| author_name := author_names; author_url := author_url;
                            author_icon_url := Some (icon_url AO3_site) |};
          fields := [];
          footer := Some (py "A substitute for displaying AO3 information.") |}) in
  series_descr ← shorten (series_description series ++ [10; 10]%N)
                   (6000 - embed_len ao3_embed) (py "..." ++ [10; 10]%N);
  mret (set_description ao3_embed (series_descr ++ default [] (description ao3_embed))).

Definition create_atlas_ffn_embed_wrapped (now : Z) (story : atlas_story) : result Embed :=
  let update_date :=
    match atlas_updated story with
    | Some d => d
    | None => atlas_published story
    end in
  let updated :=
    strftime update_date ++ (if atlas_is_complete story then py " (Complete)" else []) in
  fandoms ← shorten (join (py ", ") (atlas_fandoms story)) 100 (py "...");
  genres ← shorten (join (py "/") (atlas_genres story)) 100 (py "...");
  characters ← shorten (join (py ", ") (atlas_characters story)) 100 (py "...");
  let details := join bullet [fandoms; genres; characters] in
  let stats :=
    py "**Reviews:** " ++ format_commas (atlas_reviews story) ++ bullet
    ++ py "**Faves:** " ++ format_commas (atlas_favorites story) ++ bullet
    ++ py "**Follows:** " ++ format_commas (atlas_follows story) in
  let ffn_embed :=
    add_field (BAR_CHART ++ py " Stats") stats false
    (add_field (BOOKMARK ++ py " Rating: Fiction " ++ atlas_rating story) details false
    (add_field (OPEN_BOOK ++ py " Length")
       (format_commas (atlas_words story) ++ py " words in "
        ++ str_of_int (atlas_chapters story) ++ py " chapter(s)") true
    (add_field (SCROLL ++ py " Last Updated") updated true
       {| embed_class := PlainEmbed;
          title := Some (atlas_title story);
          url := Some (atlas_url story);
          description := Some (atlas_description story);
          timestamp := Some now;
          author := Some {| author_name := atlas_author_name story;
                            author_url := atlas_author_url story;
                            author_icon_url := Some (icon_url FFN_site) |};
          fields := [];
          footer := Some (py "Made using iris's Atlas API. Some results may be out of date or unavailable.") |}))) in
  descr ← shorten (atlas_description story) (6000 - embed_len ffn_embed) (py "...");
  mret (set_description ffn_embed descr).

(** One entry of the statistics line: ["**Name:** 1,234"]. *)
Definition stat_entry (stat_name : string) (value : Z) : pystr :=
  py "**" ++ capitalize (py stat_name) ++ py ":** " ++ format_commas value.

Definition create_fichub_embed_wrapped (now : Z) (story : fichub_story) : result Embed :=
  let updated := strftime (fichub_updated story) in
  fandoms ← shorten (join (py ", ") (fichub_fandoms story)) 100 (py "...");
  let categories_list := default [] (fichub_more_meta story !! "category"%string) in
  categories ← shorten (join (py ", ") categories_list) 100 (py "...");
  characters ← shorten (join (py ", ") (fichub_characters story)) 100 (py "...");
  let details := join bullet [fandoms; categories; characters] in
  let icon :=
    icon_url <$> find (fun value => bool_decide (is_Some (re_search (story_regex value)
                                                             (fichub_url story))))
                      STORY_WEBSITE_STORE in
  stats_str ←
    (if contains (py "fanfiction.net") (fichub_url story) then
       entries ← mapM (fun stat_name =>
                         match fichub_stats story !! stat_name with
                         | Some v => Ok (stat_entry stat_name v)
                         | None => Raise KeyError
                         end)
                      ["reviews"; "favorites"; "follows"]%string;
       mret (join bullet entries)
     else if contains (py "archiveofourown.org") (fichub_url story) then
       mret (join bullet
               (omap (fun stat_name => stat_entry stat_name <$> fichub_stats story !! stat_name)
                     ["comments"; "kudos"; "bookmarks"; "hits"]%string))
     else mret (py "No stats available at this time."));
  let story_embed :=
    add_field (BAR_CHART ++ py " Stats") stats_str false
    (add_field (BOOKMARK ++ py " Rating: " ++ fichub_rating story) details false
    (add_field (OPEN_BOOK ++ py " Length")
       (format_commas (fichub_words story) ++ py " words in "
        ++ str_of_int (fichub_chapters story) ++ py " chapter(s)") true
    (add_field (SCROLL ++ py " Last Updated")
       (updated ++ py " (" ++ capitalize (fichub_status story) ++ py ")") true
       {| embed_class := PlainEmbed;
          title := Some (fichub_title story);
          url := Some (fichub_url story);
          description := Some (fichub_description story);
          timestamp := Some now;
          author := Some {| author_name := fichub_author_name story;
                            author_url := fichub_author_url story;
                            author_icon_url := icon |};
          fields := [];
          footer := Some (py "Made using the FicHub API. Some results may be out of date or unavailable.") |}))) in
  descr ← shorten (fichub_description story) (6000 - embed_len story_embed) (py "...");
  mret (set_description story_embed descr).

(** [functools.cache]: the card built for an argument is kept and handed
    out again for an equal argument; a call that raises stores nothing.
    [table] reads the decorated function's table in the world, [store]
    writes it. *)
Definition functools_cache {K} `{EqDecision K}
    (table : world -> list (K * Embed)) (store : list (K * Embed) -> world -> world)
    (wrapped : Z -> K -> result Embed) (arg : K) : M Embed :=
  fun w =>
    match cache_lookup arg (table w) with
    | Some e => (Ok e, w)
    | None =>
        match wrapped (clock w) arg with
        | Ok e => (Ok e, store ((arg, e) :: table w) w)
        | Raise x => (Raise x, w)
        end
    end.

Definition store_ao3_work (t : list (ao3_work * Embed)) (w : world) : world :=
  {| db_connection := db_connection w; clock := clock w;
     cache_ao3_work := t; cache_ao3_series := cache_ao3_series w;
     cache_atlas := cache_atlas w; cache_fichub := cache_fichub w;
     trace := trace w |}.

Definition store_ao3_series (t : list (ao3_series * Embed)) (w : world) : world :=
  {| db_connection := db_connection w; clock := clock w;
     cache_ao3_work := cache_ao3_work w; cache_ao3_series := t;
     cache_atlas := cache_atlas w; cache_fichub := cache_fichub w;
     trace := trace w |}.

Definition store_atlas (t : list (atlas_story * Embed)) (w : world) : world :=
  {| db_connection := db_connection w; clock := clock w;
     cache_ao3_work := cache_ao3_work w; cache_ao3_series := cache_ao3_series w;
     cache_atlas := t; cache_fichub := cache_fichub w;
     trace := trace w |}.

Definition store_fichub (t : list (fichub_story * Embed)) (w : world) : world :=
  {| db_connection := db_connection w; clock := clock w;
     cache_ao3_work := cache_ao3_work w; cache_ao3_series := cache_ao3_series w;
     cache_atlas := cache_atlas w; cache_fichub := t;
     trace := trace w |}.

Definition create_ao3_work_embed : ao3_work -> M Embed :=
  functools_cache cache_ao3_work store_ao3_work create_ao3_work_embed_wrapped.

Definition create_ao3_series_embed : ao3_series -> M Embed :=
  functools_cache cache_ao3_series store_ao3_series create_ao3_series_embed_wrapped.

Definition create_atlas_ffn_embed : atlas_story -> M Embed :=
  functools_cache cache_atlas store_atlas create_atlas_ffn_embed_wrapped.

Definition create_fichub_embed : fichub_story -> M Embed :=
  functools_cache cache_fichub store_fichub create_fichub_embed_wrapped.

(** [EMBED_STRATEGIES], with each builder taken without its cache. *)
Definition strategy_wrapped (now : Z) (story_data : StoryDataType) : result Embed :=
  match story_data with
  | AtlasStory story => create_atlas_ffn_embed_wrapped now story
  | FicHubStory story => create_fichub_embed_wrapped now story
  | AO3Work work => create_ao3_work_embed_wrapped now work
  | AO3Series series => create_ao3_series_embed_wrapped now series
  end.

(** [EMBED_STRATEGIES.get(type(story_data), NotFoundEmbed)(story_data)]:
    the builder registered for the class of the value, [NotFoundEmbed]
    for [None]. *)
Definition ff_embed_factory (story_data : option StoryDataType) : M Embed :=
  match story_data with
  | Some (AtlasStory story) => create_atlas_ffn_embed story
  | Some (FicHubStory story) => create_fichub_embed story
  | Some (AO3Work work) => create_ao3_work_embed work
  | Some (AO3Series series) => create_ao3_series_embed series
  | None => NotFoundEmbed
  end.

(** ** The paginated view of a series: [AO3SeriesView] *)

Record SelectOption := {
  option_label : pystr;
  option_value : pystr;
  option_description : pystr;
}.

Record AO3SeriesView := {
  author_id : Z;
  series_of : ao3_series;
  page_index : Z;
  select_page_options : list SelectOption;
  select_page_disabled : bool;
  turn_to_previous_disabled : bool;
  turn_to_next_disabled : bool;
  stopped : bool;
}.

Definition total_pages (self : AO3SeriesView) : Z := len (works_list (series_of self)).

Definition set_page_index (i : Z) (self : AO3SeriesView) : AO3SeriesView :=
  {| author_id := author_id self; series_of := series_of self; page_index := i;
     select_page_options := select_page_options self;
     select_page_disabled := select_page_disabled self;
     turn_to_previous_disabled := turn_to_previous_disabled self;
     turn_to_next_disabled := turn_to_next_disabled self;
     stopped := stopped self |}.

(** [interaction_check]: only the owner may use the view. *)
Definition interaction_check (self : AO3SeriesView) (user : Z) : M bool :=
  let check := bool_decide (author_id self = user) in
  (if check then mret tt
   else emit (Response_send_message (py "You cannot interact with this view.")));;
  mret check.

(** [on_timeout]: every item is disabled and the view stops. *)
Definition on_timeout (self : AO3SeriesView) : AO3SeriesView :=
  {| author_id := author_id self; series_of := series_of self;
     page_index := page_index self;
     select_page_options := select_page_options self;
     select_page_disabled := true;
     turn_to_previous_disabled := true;
     turn_to_next_disabled := true;
     stopped := true |}.

Definition format_page (self : AO3SeriesView) : M Embed :=
  if bool_decide (page_index self ≠ 0) then
    work ← lift (py_index (works_list (series_of self)) (page_index self - 1));
    create_ao3_work_embed work
  else create_ao3_series_embed (series_of self).

(** [Select.add_option]: a select menu holds at most 25 options. *)
Definition add_option (o : SelectOption) (options : list SelectOption)
  : result (list SelectOption) :=
  if 25 <=? len options then Raise ValueError else Ok (options ++ [o]).

Fixpoint populate_works (i : Z) (works : list ao3_work) (options : list SelectOption)
  : result (list SelectOption) :=
  match works with
  | [] => Ok options
  | work :: rest =>
      descr ← shorten (work_summary work) 100 (py "...");
      options' ← add_option {| option_label := str_of_int i ++ py ". " ++ work_title work;
                               option_value := str_of_int i;
                               option_description := descr |} options;
      populate_works (i + 1) rest options'
  end.

Definition populate_select (series : ao3_series) : result (list SelectOption) :=
  descr ← shorten (series_description series) 100 (py "...");
  options ← add_option {| option_label := series_name series;
                          option_value := py "0";
                          option_description := descr |} [];
  populate_works 1 (works_list series) options.

Definition disable_page_buttons (self : AO3SeriesView) : AO3SeriesView :=
  {| author_id := author_id self; series_of := series_of self;
     page_index := page_index self;
     select_page_options := select_page_options self;
     select_page_disabled := select_page_disabled self;
     turn_to_previous_disabled := bool_decide (page_index self = 0);
     turn_to_next_disabled := bool_decide (page_index self = total_pages self - 1);
     stopped := stopped self |}.

(** [AO3SeriesView(author_id, series)]. *)
Definition AO3SeriesView_init (author : Z) (series : ao3_series) : result AO3SeriesView :=
  options ← populate_select series;
  mret (disable_page_buttons
          {| author_id := author; series_of := series; page_index := 0;
             select_page_options := options; select_page_disabled := false;
             turn_to_previous_disabled := false; turn_to_next_disabled := false;
             stopped := false |}).

(** The methods below change the view and may raise after having changed
    it: they return the view next to the outcome. *)
Definition VM (A : Type) : Type := world -> result A * AO3SeriesView * world.

Definition update_page (self : AO3SeriesView) : VM unit :=
  fun w =>
    match format_page self w with
    | (Raise e, w') => (Raise e, self, w')
    | (Ok embed_page, w') =>
        let self' := disable_page_buttons self in
        ((emit (Response_edit_message embed_page) w').1, self',
         (emit (Response_edit_message embed_page) w').2)
    end.

(** The callback of the select menu; [value] is the chosen option's value. *)
Definition select_page (self : AO3SeriesView) (value : pystr) : VM unit :=
  update_page (set_page_index (int_of_digits value) self).

Definition turn_to_previous (self : AO3SeriesView) : VM unit :=
  update_page (set_page_index (page_index self - 1) self).

Definition turn_to_next (self : AO3SeriesView) : VM unit :=
  update_page (set_page_index (page_index self + 1) self).

(** What the chat client lets the user do: a button that is disabled, or
    a view that has stopped, triggers nothing; otherwise the callback
    runs when [interaction_check] lets it. *)
Inductive button := previous_button | next_button.

Definition press (b : button) (user : Z) (self : AO3SeriesView) : VM unit :=
  fun w =>
    let disabled :=
      match b with
      | previous_button => turn_to_previous_disabled self
      | next_button => turn_to_next_disabled self
      end in
    if stopped self || disabled then (Ok tt, self, w)
    else
      match interaction_check self user w with
      | (Raise e, w') => (Raise e, self, w')
      | (Ok false, w') => (Ok tt, self, w')
      | (Ok true, w') =>
          match b with
          | previous_button => turn_to_previous self w'
          | next_button => turn_to_next self w'
          end
      end.

(** The page indices seen after each of a sequence of presses. *)
Fixpoint press_all (bs : list button) (user : Z) (self : AO3SeriesView) (w : world)
  : list Z :=
  match bs with
  | [] => []
  | b :: rest =>
      let '(_, self', w') := press b user self w in
      page_index self' :: press_all rest user self' w'
  end.

(** The page index and whether the callback returned, when the callback of
    "next" is run [n] times in a row whatever the state of the button. *)
Fixpoint turn_to_next_times (n : nat) (self : AO3SeriesView) (w : world)
  : list (Z * bool) :=
  match n with
  | O => []
  | S n' =>
      let '(outcome, self', w') := turn_to_next self w in
      (page_index self', match outcome with Ok _ => true | Raise _ => false end)
      :: turn_to_next_times n' self' w'
  end.

(** ** The resolution engine: [WebficSearcherBot] *)

(** The texts of the warnings that the fallbacks log. *)
Definition msg_fichub_failed : pystr :=
  py "Retrieval with Fichub client failed. Trying the AO3 scraping library now.".

Definition msg_fichub_ao3_failed : pystr :=
  py "Retrieval with Fichub client and AO3 scraping library failed. Returning None.".

Definition msg_atlas_failed : pystr :=
  py "Retrieval with Atlas client failed. Trying FicHub now.".

Definition msg_atlas_fichub_failed : pystr :=
  py "Retrieval with Atlas and Fichub clients failed. Returning None.".

(** A call to a client: the call is recorded, the client answers. *)
Definition call {A} (ev : event) (answer : list event -> result A) : M A :=
  fun w => (answer (trace w), (emit ev w).2).

(** [int(match.group(name))]. *)
Definition int_of_group (g : option pystr) : M Z :=
  match g with
  | Some digits => mret (int_of_digits digits)
  | None => raise TypeError
  end.

Definition search_ao3 (name_or_url : pystr) : M (option StoryDataType) :=
  match re_search (story_regex AO3_site) name_or_url with
  | Some m =>
      if bool_decide (group m "type" = Some (py "series")) then
        try_except
          (series_id ← int_of_group (group m "ao3_id");
           story_data ← call (Call_ao3_get_series series_id)
                              (fun h => ao3_get_series h series_id);
           mret (AO3Series <$> story_data))
          (fun e => bool_decide (e = AO3Exception))
          (fun _ => emit (Log_exception []);; mret None)
      else
        try_except
          (let url := group0 m in
           story_data ← call (Call_fichub_get_story_metadata url)
                              (fun h => fichub_get_story_metadata h url);
           mret (FicHubStory <$> story_data))
          (fun e => bool_decide (e = FicHubException))
          (fun err =>
             emit (Log_warning msg_fichub_failed err);;
             try_except
               (work_id ← int_of_group (group m "ao3_id");
                story_data ← call (Call_ao3_get_work work_id)
                                   (fun h => ao3_get_work h work_id);
                mret (AO3Work <$> story_data))
               (fun e => bool_decide (e = AO3Exception))
               (fun err =>
                  emit (Log_warning msg_fichub_ao3_failed err);;
                  mret None))
  | None =>
      results ← call (Call_ao3_search_works name_or_url)
                     (fun h => ao3_search_works h name_or_url);
      mret (AO3Work <$> head results)
  end.

(** The test [if fic_id := atlas_api.extract_fic_id(name_or_url)] is a
    test for truth: it fails for [None] and for the id 0. *)
Definition search_ffn (name_or_url : pystr) : M (option StoryDataType) :=
  let title_search : M (option StoryDataType) :=
    let title_ilike := py "%" ++ name_or_url ++ py "%" in
    results ← call (Call_atlas_get_bulk_metadata title_ilike 1)
                   (fun h => atlas_get_bulk_metadata h title_ilike 1);
    mret (AtlasStory <$> head results) in
  match extract_fic_id name_or_url with
  | Some fic_id =>
      if bool_decide (fic_id ≠ 0) then
        try_except
          (story_data ← call (Call_atlas_get_story_metadata fic_id)
                              (fun h => atlas_get_story_metadata h fic_id);
           mret (AtlasStory <$> story_data))
          (fun e => bool_decide (e = AtlasException))
          (fun err =>
             emit (Log_warning msg_atlas_failed err);;
             try_except
               (story_data ← call (Call_fichub_get_story_metadata name_or_url)
                                   (fun h => fichub_get_story_metadata h name_or_url);
                mret (FicHubStory <$> story_data))
               (fun e => bool_decide (e = FicHubException))
               (fun err =>
                  emit (Log_warning msg_atlas_fichub_failed err);;
                  mret None))
      else title_search
  | None => title_search
  end.

Definition search_other (url : pystr) : M (option StoryDataType) :=
  story_data ← call (Call_fichub_get_story_metadata url)
                     (fun h => fichub_get_story_metadata h url);
  mret (FicHubStory <$> story_data).

(** The body of the loop of [get_ff_data_from_links], up to its [yield]. *)
Definition resolve_match (match_obj : re_match) : M (option StoryDataType) :=
  match lastgroup match_obj with
  | Some g =>
      if bool_decide (g = "FFN"%string) then
        fic_id ← int_of_group (group match_obj "ffn_id");
        story_data ← call (Call_atlas_get_story_metadata fic_id)
                           (fun h => atlas_get_story_metadata h fic_id);
        mret (AtlasStory <$> story_data)
      else if bool_decide (g = "AO3"%string) then search_ao3 (group0 match_obj)
      else search_other (group0 match_obj)
  | None => mret None
  end.

(** The asynchronous generator: one suspended resolution per detected
    link, in detection order; each runs when the consumer asks for the
    next item. *)
Definition get_ff_data_from_links (text : pystr) : list (M (option StoryDataType)) :=
  map resolve_match (finditer STORY_WEBSITE_REGEX text).

(** [async for x in gen: body(x)]: an exception raised by the generator or
    by the body ends the loop and propagates. *)
Fixpoint async_for {A} (gen : list (M A)) (body : A -> M unit) : M unit :=
  match gen with
  | [] => mret tt
  | step :: rest => x ← step; body x;; async_for rest body
  end.

(** Running the generator to its end, collecting what it yields. *)
Fixpoint collect {A} (gen : list (M A)) : M (list A) :=
  match gen with
  | [] => mret []
  | step :: rest => x ← step; xs ← collect rest; mret (x :: xs)
  end.

(** Store operations through the bot's connection. *)
Definition on_connection {A} (op : database -> result A * database) : M A :=
  fun w => ((op (db_connection w)).1, set_db (op (db_connection w)).2 w).

Definition get_all_autoresponse_channels : M (list AutoresponseLocation) :=
  on_connection (fun db => _query db SELECT_ALL_STATEMENT []).

Definition get_guild_autoresponse_channels (guild : Z) : M (list AutoresponseLocation) :=
  on_connection (fun db => _query db SELECT_BY_GUILD_STATEMENT [guild]).

Definition add_autoresponse_channels (locations : list AutoresponseLocation)
  : M (list AutoresponseLocation) :=
  on_connection (fun db => _add db locations).

Definition drop_autoresponse_channels (locations : list AutoresponseLocation)
  : M (list AutoresponseLocation) :=
  on_connection (fun db => _drop db locations).

Record Message := {
  author_is_bot_user : bool;   (* message.author == self.user *)
  message_guild : option Z;    (* message.guild, by its id *)
  message_channel : Z;
  content : pystr;
}.

(** The body of the loop of [on_message] for one yielded item. *)
Definition respond (channel : Z) (story_data : option StoryDataType) : M unit :=
  match story_data with
  | Some _ =>
      embed ← ff_embed_factory story_data;
      if bool_decide (embed_class embed ≠ NotFoundEmbedClass)
      then emit (Channel_send channel embed)
      else mret tt
  | None => mret tt
  end.

Definition on_message (message : Message) : M unit :=
  match message_guild message with
  | Some guild =>
      if author_is_bot_user message then mret tt
      else
        channels_cache ← get_guild_autoresponse_channels guild;
        if bool_decide (channels_cache ≠ [])
           && bool_decide ({| guild_id := guild; channel_id := message_channel message |}
                           ∈ channels_cache)
           && bool_decide (is_Some (re_search STORY_WEBSITE_REGEX (content message)))
        then
          emit (Typing (message_channel message));;
          async_for (get_ff_data_from_links (content message))
                    (respond (message_channel message))
        else mret tt
  | None => mret tt
  end.

Inductive platform := ao3 | ffn | other.

(** The [/wf_search] command; returns the view attached to the reply for
    a series. *)
Definition wf_search (user : Z) (p : platform) (name_or_url : pystr)
  : M (option AO3SeriesView) :=
  emit Response_defer;;
  story_data ← match p with
               | ao3 => search_ao3 name_or_url
               | ffn => search_ffn name_or_url
               | other => search_other name_or_url
               end;
  embed ← ff_embed_factory story_data;
  match story_data with
  | Some (AO3Series series) =>
      view ← lift (AO3SeriesView_init user series);
      emit (Followup_send embed true);;
      mret (Some view)
  | _ => emit (Followup_send embed false);; mret None
  end.

(** The [/wf_autoresponse add], [remove] and [clear] commands, for the
    channels that the transformer resolved. *)
Definition wf_autoresponse_add (guild : Z) (channels : list Z) : M unit :=
  emit Response_defer;;
  active_channels ←
    add_autoresponse_channels (map (fun c => {| guild_id := guild; channel_id := c |}) channels);
  emit (Followup_send
          {| embed_class := PlainEmbed;
             title := Some (py "Adjusted Autoresponse Channels for Fanfic Links");
             url := None;
             description :=
               Some (join [10%N] (map (fun row => py "<#" ++ str_of_int (channel_id row) ++ py ">")
                                      active_channels));
             timestamp := None; author := None; fields := []; footer := None |} false).

Definition wf_autoresponse_remove (guild : Z) (channels : list Z) : M unit :=
  emit Response_defer;;
  active_channels ←
    drop_autoresponse_channels (map (fun c => {| guild_id := guild; channel_id := c |}) channels);
  emit (Followup_send
          {| embed_class := PlainEmbed;
             title := Some (py "Adjusted Autoresponse Channels for Webfiction Links");
             url := None;
             description :=
               Some (join [10%N] (map (fun row => py "<#" ++ str_of_int (channel_id row) ++ py ">")
                                      active_channels));
             timestamp := None; author := None; fields := []; footer := None |} false).

Definition wf_autoresponse_clear (guild : Z) : M unit :=
  emit Response_defer;;
  on_connection (fun db => _clear db guild);;
  emit (Followup_send
          {| embed_class := PlainEmbed;
             title := Some (py "Cleared Autoresponse Channels for Webfiction Links");
             url := None; description := None;
             timestamp := None; author := None; fields := []; footer := None |} false).


(** [get_first_page]: the overview card, whatever page is shown. The index
    is set to 0, the page is formatted and the index is put back; when the
    formatting raises, the index is not put back. *)
Definition get_first_page (self : AO3SeriesView) : VM Embed :=
  fun w =>
    let temp := page_index self in
    let self0 := set_page_index 0 self in
    match format_page self0 w with
    | (Raise e, w') => (Raise e, self0, w')
    | (Ok embed, w') => (Ok embed, set_page_index temp self0, w')
    end.

(** ** The channel list of the autoresponse commands:
    [GuildChannelListTransformer] *)

(** A channel of a guild, by what the transformer reads of it. *)
Record GuildChannel := {
  gchannel_id : Z;
  gchannel_name : pystr;
}.

(** A guild, by [guild.channels]; [guild.get_channel] looks an id up in
    the same collection. *)
Record Guild := {
  guild_channels : list GuildChannel;
}.

Definition get_channel (guild : Guild) (channel : Z) : option GuildChannel :=
  find (fun c => bool_decide (gchannel_id c = channel)) (guild_channels guild).

(** [discord.utils.get(guild.channels, name=argument)]: the first channel
    of that name. *)
Definition get_by_name (guild : Guild) (argument : pystr) : option GuildChannel :=
  find (fun c => bool_decide (gchannel_name c = argument)) (guild_channels guild).

(** [re.split(" ", value)]: the pieces between single blanks, empty
    pieces included. *)
Fixpoint split_on_space (value : pystr) (cur : pystr) : list pystr :=
  match value with
  | [] => [rev cur]
  | c :: rest =>
      if (c =? 32)%N then rev cur :: split_on_space rest []
      else split_on_space rest (c :: cur)
  end.

(** The group [([0-9]{15,20})]: between [lo] and [hi] digits, as many as
    possible first; the continuation gets the digits and what follows. *)
Fixpoint digits_between {X} (lo hi : nat) (s : pystr) (taken : pystr)
    (k : pystr -> pystr -> option X) : option X :=
  let stop := match lo with O => k (rev taken) s | S _ => None end in
  match hi, s with
  | S hi', c :: s' =>
      if is_digit c then
        match digits_between (Nat.pred lo) hi' s' (c :: taken) k with
        | Some x => Some x
        | None => stop
        end
      else stop
  | _, _ => stop
  end.

(** [$]: the end of the text, or just before a line feed that ends it. *)
Definition at_dollar (s : pystr) : bool :=
  match s with
  | [] => true
  | [c] => (c =? 10)%N
  | _ => false
  end.

(** [re.match(r"([0-9]{15,20})$", argument)], by its group 1. *)
Definition match_channel_id (argument : pystr) : option pystr :=
  digits_between 15 20 argument []
    (fun digits rest => if at_dollar rest then Some digits else None).

(** [re.match(r"<#([0-9]{15,20})>$", argument)], by its group 1. *)
Definition match_channel_mention (argument : pystr) : option pystr :=
  if starts_with (py "<#") argument then
    digits_between 15 20 (drop 2 argument) []
      (fun digits rest =>
         if starts_with (py ">") rest && at_dollar (drop 1 rest)
         then Some digits else None)
  else None.

(** [_resolve_channel]; [None] stands for [ChannelNotFound], which
    [transform] catches at once. *)
Definition _resolve_channel (guild : Guild) (argument : pystr) : option GuildChannel :=
  let m := match match_channel_id argument with
           | Some digits => Some digits
           | None => match_channel_mention argument
           end in
  match m with
  | None => get_by_name guild argument
  | Some digits => get_channel guild (int_of_digits digits)
  end.

Definition transform (guild : Guild) (value : pystr) : list GuildChannel :=
  omap (_resolve_channel guild) (split_on_space value []).

(** The [add] and [remove] commands as they are invoked: the text of the
    option goes through the transformer first. *)
Definition wf_autoresponse_add_invoked (guild_ident : Z) (guild : Guild) (value : pystr)
  : M unit :=
  wf_autoresponse_add guild_ident (map gchannel_id (transform guild value)).

Definition wf_autoresponse_remove_invoked (guild_ident : Z) (guild : Guild) (value : pystr)
  : M unit :=
  wf_autoresponse_remove guild_ident (map gchannel_id (transform guild value)).

End Bot.

(** ** Notions used by the statements *)



(** The world with further events on its trace. *)
Definition record (evs : list event) (w : world) : world :=
  {| db_connection := db_connection w; clock := clock w;
     cache_ao3_work := cache_ao3_work w; cache_ao3_series := cache_ao3_series w;
     cache_atlas := cache_atlas w; cache_fichub := cache_fichub w;
     trace := trace w ++ evs |}.

Definition is_fichub_call (ev : event) : bool :=
  match ev with
  | Call_fichub_get_story_metadata _ => true
  | _ => false
  end.




(** The events that a run added to the trace. *)
Definition new_events (before after : world) : list event :=
  drop (length (trace before)) (trace after).

(** The rows of the settings table are in strict primary-key order. *)
Definition settings_sorted (db : database) : Prop :=
  ∀ rows, db !! "webfic_autoresponse_settings"%string = Some rows →
          StronglySorted (fun a b => location_ltb a b = true) rows.


(** Every memoised card is what its builder returned for the key at some
    time. *)
Definition cache_sound {packages : Packages} (w : world) : Prop :=
  Forall (fun p => ∃ now, create_ao3_work_embed_wrapped now p.1 = Ok p.2) (cache_ao3_work w)
  ∧ Forall (fun p => ∃ now, create_ao3_series_embed_wrapped now p.1 = Ok p.2)
      (cache_ao3_series w)
  ∧ Forall (fun p => ∃ now, create_atlas_ffn_embed_wrapped now p.1 = Ok p.2) (cache_atlas w)
  ∧ Forall (fun p => ∃ now, create_fichub_embed_wrapped now p.1 = Ok p.2) (cache_fichub w).

(** A computation leaves the settings store as it found it. *)
Definition keeps_store {A} (c : M A) : Prop :=
  ∀ w, db_connection (c w).2 = db_connection w.

(** ** Sample data for the worked scenarios *)

Definition loc (g c : Z) : AutoresponseLocation := {| guild_id := g; channel_id := c |}.

(** The store after [add([{1,10},{1,11}])] on a new database. *)
Definition store_after_add : database := (_add fresh_store [loc 1 10; loc 1 11]).2.

(** The reference packages: [textwrap_shorten] for [textwrap.shorten]; the
    logo address is a stand-in for the constant of the ao3 package. *)
Definition reference_packages : Packages := {|
  AO3_LOGO_URL := py "https://archiveofourown.org/logo.png";
  shorten := textwrap_shorten;
|}.

Definition initial_world : world := {|
  db_connection := fresh_store;
  clock := 0;
  cache_ao3_work := [];
  cache_ao3_series := [];
  cache_atlas := [];
  cache_fichub := [];
  trace := [];
|}.

Definition sample_user : ao3_user := {| user_name := Some (py "penname") |}.

Definition sample_work (n : Z) : ao3_work := {|
  work_title := py "Part " ++ str_of_int n;
  work_url := py "https://archiveofourown.org/works/" ++ str_of_int n;
  work_authors := [sample_user];
  work_date_updated := None;
  work_is_complete := false;
  work_fandoms := [py "Original Work"];
  work_categories := [py "Gen"];
  work_characters := [];
  work_ncomments := 12;
  work_nkudos := 3456;
  work_nbookmarks := 7;
  work_nhits := 1234567;
  work_nwords := 50321;
  work_nchapters := 4;
  work_rating := py "General Audiences";
  work_summary := py "A short summary.";
|}.

(** A series of three works. *)
Definition sample_series : ao3_series := {|
  series_name := py "A Series";
  series_url := py "https://archiveofourown.org/series/7";
  series_creators := [sample_user];
  series_date_updated := Some {| year := 2023; month_of := March; day := 5 |};
  series_is_complete := true;
  series_description := py "Three parts.";
  works_list := [sample_work 1; sample_work 2; sample_work 3];
  series_nwords := 150963;
  series_nworks := 3;
|}.

Definition sample_owner : Z := 7.

Definition sample_view : result AO3SeriesView :=
  AO3SeriesView_init (packages := reference_packages) sample_owner sample_series.

(** [n] times the word "word" and a blank: a text of [5 * n] units. *)
Definition words (n : nat) : pystr := concat (repeat (py "word ") n).

Definition sample_atlas_story (descr : pystr) : atlas_story := {|
  atlas_title := py "A Story";
  atlas_url := py "https://www.fanfiction.net/s/42";
  atlas_description := descr;
  atlas_author_name := py "penname";
  atlas_author_url := py "https://www.fanfiction.net/u/1";
  atlas_updated := None;
  atlas_published := {| year := 2020; month_of := January; day := 5 |};
  atlas_is_complete := false;
  atlas_fandoms := [py "Harry Potter"];
  atlas_genres := [py "Adventure"; py "Drama"];
  atlas_characters := [];
  atlas_reviews := 10;
  atlas_favorites := 2000;
  atlas_follows := 30;
  atlas_words := 123456;
  atlas_chapters := 12;
  atlas_rating := py "T";
|}.

Definition sample_fichub_story : fichub_story := {|
  fichub_title := py "A Quest";
  fichub_url := py "https://forums.spacebattles.com/threads/a-quest.1/";
  fichub_description := py "An ongoing quest.";
  fichub_author_name := py "penname";
  fichub_author_url := py "https://forums.spacebattles.com/members/1/";
  fichub_updated := {| year := 2024; month_of := November; day := 30 |};
  fichub_status := py "ongoing";
  fichub_fandoms := [];
  fichub_more_meta := ∅;
  fichub_characters := [];
  fichub_stats := ∅;
  fichub_words := 98765;
  fichub_chapters := 40;
  fichub_rating := py "Teen";
|}.

(** [sample_fichub_story] with another description. *)
Definition sample_fichub_story_with_description (descr : pystr) : fichub_story := {|
  fichub_title := fichub_title sample_fichub_story;
  fichub_url := fichub_url sample_fichub_story;
  fichub_description := descr;
  fichub_author_name := fichub_author_name sample_fichub_story;
  fichub_author_url := fichub_author_url sample_fichub_story;
  fichub_updated := fichub_updated sample_fichub_story;
  fichub_status := fichub_status sample_fichub_story;
  fichub_fandoms := [];
  fichub_more_meta := ∅;
  fichub_characters := [];
  fichub_stats := ∅;
  fichub_words := 98765;
  fichub_chapters := 40;
  fichub_rating := py "Teen";
|}.

(** [sample_work 1] with another summary. *)
Definition sample_work_with_summary (summary : pystr) : ao3_work := {|
  work_title := work_title (sample_work 1);
  work_url := work_url (sample_work 1);
  work_authors := work_authors (sample_work 1);
  work_date_updated := Some {| year := 2022; month_of := July; day := 14 |};
  work_is_complete := true;
  work_fandoms := work_fandoms (sample_work 1);
  work_categories := work_categories (sample_work 1);
  work_characters := work_characters (sample_work 1);
  work_ncomments := 12;
  work_nkudos := 3456;
  work_nbookmarks := 7;
  work_nhits := 1234567;
  work_nwords := 50321;
  work_nchapters := 4;
  work_rating := py "General Audiences";
  work_summary := summary;
|}.

(** Modelled from the spec: [atlas_api.extract_fic_id] is not part of the
    module. The spec has a numeric id "extractable from the query" and ids
    "parsed as base-10 non-negative integers": the id is read with the
    FanFiction.Net pattern of the registry. *)
Definition reference_extract_fic_id (text : pystr) : option Z :=
  m ← re_search (story_regex FFN_site) text;
  int_of_digits <$> group m "ffn_id".

(** Clients of which every call fails with the failure of its provider. *)
Definition failing_clients : Clients := {|
  ao3_get_series := fun _ _ => Raise AO3Exception;
  ao3_get_work := fun _ _ => Raise AO3Exception;
  ao3_search_works := fun _ _ => Raise AO3Exception;
  fichub_get_story_metadata := fun _ _ => Raise FicHubException;
  atlas_get_story_metadata := fun _ _ => Raise AtlasException;
  atlas_get_bulk_metadata := fun _ _ _ => Raise AtlasException;
  extract_fic_id := reference_extract_fic_id;
|}.

(** Clients that know one story on each site and fail on any other
    lookup. *)
Definition sample_clients : Clients := {|
  ao3_get_series := fun _ id =>
    if id =? 7 then Ok (Some sample_series) else Raise AO3Exception;
  ao3_get_work := fun _ id =>
    if id =? 12345 then Ok (Some (sample_work 12345)) else Raise AO3Exception;
  ao3_search_works := fun _ _ => Ok [];
  fichub_get_story_metadata := fun _ url =>
    if bool_decide (url = fichub_url sample_fichub_story)
    then Ok (Some sample_fichub_story) else Raise FicHubException;
  atlas_get_story_metadata := fun _ id =>
    if id =? 42 then Ok (Some (sample_atlas_story (words 10))) else Raise AtlasException;
  atlas_get_bulk_metadata := fun _ _ _ => Ok [];
  extract_fic_id := reference_extract_fic_id;
|}.

(** [sample_work 1] without authors. *)
Definition sample_work_without_authors : ao3_work := {|
  work_title := work_title (sample_work 1);
  work_url := work_url (sample_work 1);
  work_authors := [];
  work_date_updated := None;
  work_is_complete := false;
  work_fandoms := work_fandoms (sample_work 1);
  work_categories := work_categories (sample_work 1);
  work_characters := [];
  work_ncomments := 12;
  work_nkudos := 3456;
  work_nbookmarks := 7;
  work_nhits := 1234567;
  work_nwords := 50321;
  work_nchapters := 4;
  work_rating := py "General Audiences";
  work_summary := py "A short summary.";
|}.

(** [sample_series] without creators. *)
Definition sample_series_without_creators : ao3_series := {|
  series_name := series_name sample_series;
  series_url := series_url sample_series;
  series_creators := [];
  series_date_updated := series_date_updated sample_series;
  series_is_complete := true;
  series_description := series_description sample_series;
  works_list := works_list sample_series;
  series_nwords := 150963;
  series_nworks := 3;
|}.

(** A FicHub story of FanFiction.Net for which no statistic is known. *)
Definition sample_fichub_ffn_story : fichub_story := {|
  fichub_title := py "A Story";
  fichub_url := py "https://www.fanfiction.net/s/42/1/";
  fichub_description := py "A story.";
  fichub_author_name := py "penname";
  fichub_author_url := py "https://www.fanfiction.net/u/1";
  fichub_updated := {| year := 2024; month_of := November; day := 30 |};
  fichub_status := py "complete";
  fichub_fandoms := [];
  fichub_more_meta := ∅;
  fichub_characters := [];
  fichub_stats := ∅;
  fichub_words := 98765;
  fichub_chapters := 40;
  fichub_rating := py "Teen";
|}.

(** A guild of two channels. *)
Definition sample_guild : Guild := {|
  guild_channels :=
    [ {| gchannel_id := 123456789012345678; gchannel_name := py "general" |};
      {| gchannel_id := 223456789012345678; gchannel_name := py "fics" |} ];
|}.

(** A text with a FanFiction.Net link and an AO3 link. *)
Definition sample_text : pystr :=
  py "see https://www.fanfiction.net/s/42/1/A-Story and archiveofourown.org/works/12345".

(** * Properties *)

Section Properties.

Context {packages : Packages} {clients : Clients}.

(** ** Indexing *)

Lemma py_index_past_the_end {A} (l : list A) (i : Z) :
  len l <= i → py_index l i = Raise IndexError.
Proof.
  intros Hi. unfold py_index, len in *.
  destruct (Z.ltb_spec i 0) as [?|_]; [lia|].
  destruct (Z.ltb_spec i 0) as [?|_]; [lia|].
  assert (Hnth : nth_error l (Z.to_nat i) = None) by (apply nth_error_None; lia).
  by rewrite Hnth.
Qed.

(** ** The settings store *)

Lemma elem_of_insert_row (r x : AutoresponseLocation) rows :
  x ∈ insert_row r rows ↔ x = r ∨ x ∈ rows.
Proof.
  induction rows as [|y rows IH]; simpl.
  - set_solver.
  - case_bool_decide as Hry.
    + subst. set_solver.
    + destruct (location_ltb r y); [set_solver|].
      rewrite !elem_of_cons, IH. tauto.
Qed.

Lemma fresh_store_lookup :
  fresh_store !! "webfic_autoresponse_settings"%string = Some []
  ∧ fresh_store !! "fanfic_autoresponse_settings"%string = None.
Proof. split; reflexivity. Qed.

(** [_clear] names a table that [_setup_db] never creates: wherever that
    table is missing the statement does not compile. *)
Lemma _clear_no_such_table (db : database) (guild : Z) :
  db !! "fanfic_autoresponse_settings"%string = None →
  _clear db guild = (Raise SQLError, db).
Proof.
  intros Hnone. unfold _clear, with_conn, execute, prepare. simpl.
  rewrite Hnone. reflexivity.
Qed.

(** In every state of the database, [_clear] leaves the rows that
    [SELECT_BY_GUILD_STATEMENT] reads untouched. *)
Lemma _clear_keeps_settings (db : database) (guild : Z) :
  (_clear db guild).2 !! "webfic_autoresponse_settings"%string
  = db !! "webfic_autoresponse_settings"%string.
Proof.
  unfold _clear, with_conn, execute, prepare, run_statement. simpl.
  destruct (db !! "fanfic_autoresponse_settings"%string) eqn:Hf; simpl; [|done].
  by rewrite lookup_insert_ne.
Qed.

(** [_drop] fails on every non-empty batch, in every state: the table is
    missing, or else the two fields of a location meet one placeholder. *)
Lemma _drop_nonempty_raises (db : database) l ls :
  ∃ e, _drop db (l :: ls) = (Raise e, db) ∧ (e = SQLError ∨ e = BindingsError).
Proof.
  unfold _drop, with_conn, executemany, prepare. simpl.
  destruct (db !! "fanfic_autoresponse_settings"%string) eqn:Hf; simpl.
  - exists BindingsError. split; [reflexivity | by right].
  - exists SQLError. split; [reflexivity | by left].
Qed.

Lemma run_many_insert (db : database) rows (locations : list AutoresponseLocation) :
  db !! "webfic_autoresponse_settings"%string = Some rows →
  run_many db INSERT_CHANNEL_STATEMENT (map location_bindings locations)
  = (Ok tt, <["webfic_autoresponse_settings"%string :=
               fold_left (fun acc l => insert_row l acc) locations rows]> db).
Proof.
  revert db rows. induction locations as [|l ls IH]; intros db rows Hrows; simpl.
  - by rewrite insert_id.
  - unfold run_statement. simpl. rewrite Hrows. simpl.
    rewrite (IH _ (insert_row {| guild_id := guild_id l; channel_id := channel_id l |} rows)).
    + rewrite insert_insert_eq. by destruct l.
    + by rewrite lookup_insert_eq.
Qed.

(** What [_add] returns on an initialised store: the rows of the first
    location's guild, after the insertions. *)
Lemma _add_returns (db : database) rows l ls :
  db !! "webfic_autoresponse_settings"%string = Some rows →
  (_add db (l :: ls)).1
  = Ok (filter (fun r => guild_id r = guild_id l)
               (fold_left (fun acc l => insert_row l acc) (l :: ls) rows)).
Proof.
  intros Hrows. unfold _add, with_conn, executemany, prepare.
  change (statement_table INSERT_CHANNEL_STATEMENT) with "webfic_autoresponse_settings"%string.
  rewrite Hrows.
  rewrite (run_many_insert db rows (l :: ls) Hrows).
  unfold py_index. simpl. unfold execute, prepare, run_statement. simpl.
  rewrite lookup_insert_eq. simpl. reflexivity.
Qed.

Lemma elem_of_fold_insert_row (x : AutoresponseLocation) locations rows :
  x ∈ fold_left (fun acc l => insert_row l acc) locations rows ↔ x ∈ locations ∨ x ∈ rows.
Proof.
  revert rows. induction locations as [|l ls IH]; intros rows; simpl.
  - set_solver.
  - rewrite IH, elem_of_insert_row, elem_of_cons. tauto.
Qed.

(** The set that [_add] returns: the guild's rows already stored
    together with the guild's locations of the batch. *)
Lemma _add_returns_guild_rows (db : database) rows l ls :
  db !! "webfic_autoresponse_settings"%string = Some rows →
  ∃ out, (_add db (l :: ls)).1 = Ok out
         ∧ ∀ x, x ∈ out ↔ guild_id x = guild_id l ∧ (x ∈ l :: ls ∨ x ∈ rows).
Proof.
  intros Hrows. eexists. split; [by apply _add_returns|].
  intros x. rewrite list_elem_of_filter, elem_of_fold_insert_row. tauto.
Qed.

(** C1. The round trip on a new store, step by step: [add] of the two
    locations of scope 1 returns exactly those two; [clear(1)] then raises
    [SQLError] (its statement names a table that does not exist) and
    removes nothing, so [select_by_scope(1)] still returns both locations
    and not the empty set; [remove] of one of them raises as well. *)
Theorem store_round_trip_breaks_at_clear :
  (_add fresh_store [loc 1 10; loc 1 11]).1 = Ok [loc 1 10; loc 1 11]
  ∧ _clear store_after_add 1 = (Raise SQLError, store_after_add)
  ∧ (_query (_clear store_after_add 1).2 SELECT_BY_GUILD_STATEMENT [1]).1
    = Ok [loc 1 10; loc 1 11]
  ∧ _drop store_after_add [loc 1 10] = (Raise SQLError, store_after_add).
Proof. repeat split; vm_compute; reflexivity. Qed.

(** C9. On an empty batch, [_add] and [_drop] raise [IndexError] in every
    state of the store (nothing is executed, then [locations[0]] fails),
    the store is unchanged, and the commands that call them with the
    channels they resolved let the exception through. *)
Theorem empty_batch_raises_IndexError (db : database) (w : world) (guild : Z) :
  _add db [] = (Raise IndexError, db)
  ∧ _drop db [] = (Raise IndexError, db)
  ∧ (wf_autoresponse_add guild [] w).1 = Raise IndexError
  ∧ (wf_autoresponse_remove guild [] w).1 = Raise IndexError.
Proof. repeat split; reflexivity. Qed.


(** ** The paginated view *)

Lemma previous_disabled_iff (self : AO3SeriesView) :
  turn_to_previous_disabled (disable_page_buttons self) = true ↔ page_index self = 0.
Proof. simpl. apply bool_decide_eq_true. Qed.

(** The "next" button is switched off one page before the last one. *)
Lemma next_disabled_iff (self : AO3SeriesView) :
  turn_to_next_disabled (disable_page_buttons self) = true
  ↔ page_index self = total_pages self - 1.
Proof. simpl. apply bool_decide_eq_true. Qed.

(** The callback of "next" has no bound of its own: called on the last
    page it moves the index past the end and the page cannot be formatted. *)
Lemma turn_to_next_past_the_end (self : AO3SeriesView) (w : world) :
  page_index self = total_pages self →
  turn_to_next self w
  = (Raise IndexError, set_page_index (total_pages self + 1) self, w).
Proof.
  intros Hlast. unfold turn_to_next, update_page, format_page.
  rewrite Hlast. cbn [page_index set_page_index series_of].
  assert (Hne : total_pages self + 1 ≠ 0) by (unfold total_pages, len; lia).
  rewrite (bool_decide_eq_true_2 _ Hne).
  unfold mbind, M_bind, bind, lift.
  rewrite py_index_past_the_end; [reflexivity | unfold total_pages; lia].
Qed.

(** ** The card builders *)

Lemma len_app {A} (l1 l2 : list A) : len (l1 ++ l2) = len l1 + len l2.
Proof. unfold len. rewrite length_app. lia. Qed.

Lemma len_nonneg {A} (l : list A) : 0 <= len l.
Proof. unfold len. lia. Qed.

Lemma shorten_fits (Hc : shorten_contract packages) text width placeholder line :
  shorten text width placeholder = Ok line → len line <= width.
Proof. intros H. specialize (Hc text width placeholder). rewrite H in Hc. tauto. Qed.

Lemma shorten_raises (Hc : shorten_contract packages) text width placeholder e :
  shorten text width placeholder = Raise e →
  e = ValueError ∧ (width <= 0 ∨ width < len (lstrip placeholder)).
Proof. intros H. specialize (Hc text width placeholder). by rewrite H in Hc. Qed.

Lemma shorten_returns (Hc : shorten_contract packages) text width placeholder :
  0 < width → len (lstrip placeholder) <= width →
  ∃ line, shorten text width placeholder = Ok line ∧ len line <= width.
Proof.
  intros Hw Hp. specialize (Hc text width placeholder).
  destruct (shorten text width placeholder) as [line|e].
  - exists line. split; [done | tauto].
  - destruct Hc as [_ [?|?]]; lia.
Qed.

Lemma embed_len_set_description (e : Embed) (d : pystr) :
  embed_len (set_description e d) = embed_len e - len (default [] (description e)) + len d.
Proof. unfold embed_len. simpl. lia. Qed.

(** The last step of a builder: the description shortened to what the
    card has left. *)
Lemma fill_empty_description (Hc : shorten_contract packages) e text placeholder d :
  description e = None →
  shorten text (6000 - embed_len e) placeholder = Ok d →
  embed_len (set_description e d) <= 6000.
Proof.
  intros Hnone Hd. apply (shorten_fits Hc) in Hd.
  rewrite embed_len_set_description, Hnone. change (len (default [] None)) with 0. lia.
Qed.

Lemma prepend_to_description (Hc : shorten_contract packages) e text placeholder d :
  shorten text (6000 - embed_len e) placeholder = Ok d →
  embed_len (set_description e (d ++ default [] (description e))) <= 6000.
Proof.
  intros Hd. apply (shorten_fits Hc) in Hd.
  rewrite embed_len_set_description, len_app. lia.
Qed.

Lemma replace_description (Hc : shorten_contract packages) e text placeholder d old :
  description e = Some old →
  shorten text (6000 - embed_len e) placeholder = Ok d →
  embed_len (set_description e d) <= 6000 - len old.
Proof.
  intros Hold Hd. apply (shorten_fits Hc) in Hd.
  rewrite embed_len_set_description, Hold. simpl. lia.
Qed.

(** Steps through the sequenced calls of a builder. *)
Ltac step_result :=
  match goal with
  | H : context [mbind _ ?r] |- _ =>
      let E := fresh "E" in
      destruct r eqn:E; cbn [mbind result_bind] in H; [|discriminate H]
  | H : mret _ = Ok _ |- _ => injection H as H
  | H : Ok _ = Ok _ |- _ => injection H as H
  end.

Lemma create_ao3_work_embed_within_budget (Hc : shorten_contract packages) now work e :
  create_ao3_work_embed_wrapped now work = Ok e → embed_len e <= 6000.
Proof.
  unfold create_ao3_work_embed_wrapped. intros H.
  repeat step_result. subst e.
  eapply (fill_empty_description Hc); [reflexivity | eassumption].
Qed.

Lemma create_ao3_series_embed_within_budget (Hc : shorten_contract packages) now series e :
  create_ao3_series_embed_wrapped now series = Ok e → embed_len e <= 6000.
Proof.
  unfold create_ao3_series_embed_wrapped. intros H.
  repeat step_result. subst e.
  eapply (prepend_to_description Hc); eassumption.
Qed.

(** The Atlas and FicHub builders measure the card with the whole
    description already in it: what they allow the shortened description
    is the budget less the other fields less the description itself. *)
Lemma create_atlas_ffn_embed_size (Hc : shorten_contract packages) now story e :
  create_atlas_ffn_embed_wrapped now story = Ok e →
  embed_len e <= 6000 - len (atlas_description story).
Proof.
  unfold create_atlas_ffn_embed_wrapped. intros H.
  repeat step_result. subst e.
  eapply (replace_description Hc); [reflexivity | eassumption].
Qed.

Lemma create_fichub_embed_size (Hc : shorten_contract packages) now story e :
  create_fichub_embed_wrapped now story = Ok e →
  embed_len e <= 6000 - len (fichub_description story).
Proof.
  unfold create_fichub_embed_wrapped. intros H.
  repeat step_result. subst e.
  eapply (replace_description Hc); [reflexivity | eassumption].
Qed.

Lemma embed_len_ge_description (e : Embed) :
  len (default [] (description e)) <= embed_len e.
Proof.
  unfold embed_len.
  assert (Hf : 0 <= fold_right
            (fun f acc => len (field_name f) + len (field_value f) + acc) 0 (fields e)).
  { induction (fields e) as [|f fs IH]; simpl; [lia|].
    pose proof (len_nonneg (field_name f)). pose proof (len_nonneg (field_value f)). lia. }
  pose proof (len_nonneg (default [] (title e))).
  pose proof (len_nonneg (default [] (footer e))).
  pose proof (len_nonneg (default [] (author_name <$> author e))).
  lia.
Qed.

(** A tag list is shortened to 100 units: under the contract this call
    always returns. *)
Lemma shorten_tags_returns (Hc : shorten_contract packages) text :
  ∃ line, shorten text 100 (py "...") = Ok line.
Proof.
  destruct (shorten_returns Hc text 100 (py "...")) as [line [H _]];
    [lia | vm_compute; discriminate | eauto].
Qed.

(** The Atlas builder raises [ValueError] on every story whose description
    has 6000 units or more, whatever the other fields are. *)
Lemma create_atlas_ffn_embed_long_description (Hc : shorten_contract packages) now story :
  6000 <= len (atlas_description story) →
  create_atlas_ffn_embed_wrapped now story = Raise ValueError.
Proof.
  intros Hlong. unfold create_atlas_ffn_embed_wrapped.
  destruct (shorten_tags_returns Hc (join (py ", ") (atlas_fandoms story))) as [f ->].
  destruct (shorten_tags_returns Hc (join (py "/") (atlas_genres story))) as [g ->].
  destruct (shorten_tags_returns Hc (join (py ", ") (atlas_characters story))) as [c ->].
  cbn [mbind result_bind].
  match goal with
  | |- context [shorten ?t (6000 - embed_len ?e) ?p] =>
      assert (Hge : len (atlas_description story) <= embed_len e)
        by apply (embed_len_ge_description e);
      pose proof (Hc t (6000 - embed_len e) p) as Hs;
      destruct (shorten t (6000 - embed_len e) p) as [line|x]
  end.
  - destruct Hs as [Hpos _]. lia.
  - destruct Hs as [-> _]. reflexivity.
Qed.

(** The FicHub builder, when it reaches its last step with a description
    of 6000 units or more, raises as well. *)
Lemma create_fichub_embed_long_description (Hc : shorten_contract packages) now story :
  6000 <= len (fichub_description story) →
  ∃ e, create_fichub_embed_wrapped now story = Raise e.
Proof.
  intros Hlong.
  destruct (create_fichub_embed_wrapped now story) as [card|e] eqn:Hrun; [|by exists e].
  exfalso. unfold create_fichub_embed_wrapped in Hrun. repeat step_result.
  match goal with
  | E : shorten ?t (6000 - embed_len ?e0) ?p = Ok _ |- _ =>
      pose proof (Hc t (6000 - embed_len e0) p) as Hs; rewrite E in Hs;
      assert (len (fichub_description story) <= embed_len e0)
        by apply (embed_len_ge_description e0)
  end.
  lia.
Qed.






(** On a miss the decorated function is its body at the current time. *)
Lemma functools_cache_miss {K} `{EqDecision K}
    (table : world -> list (K * Embed)) store wrapped (arg : K) w :
  cache_lookup arg (table w) = None →
  (functools_cache table store wrapped arg w).1 = wrapped (clock w) arg.
Proof.
  intros Hmiss. unfold functools_cache. rewrite Hmiss.
  by destruct (wrapped (clock w) arg).
Qed.



(** ** The link detector *)

Lemma starts_with_app (l r : pystr) : starts_with l (l ++ r) = true.
Proof. induction l as [|c l IH]; simpl; [done|]. by rewrite N.eqb_refl. Qed.

Lemma starts_with_inv (l s : pystr) :
  starts_with l s = true → s = l ++ drop (length l) s.
Proof.
  revert s. induction l as [|c l IH]; intros s; simpl; [done|].
  destruct s as [|c' s]; [done|].
  intros [->%N.eqb_eq Hrest]%andb_true_iff. simpl. f_equal. by apply IH.
Qed.

Lemma match_re_Lit {X} (l s : pystr) caps (k : pystr → captures → option X) x :
  match_re (Lit l) s caps k = Some x → ∃ r, s = l ++ r ∧ k r caps = Some x.
Proof.
  simpl. destruct (starts_with l s) eqn:Hl; [|done].
  intros Hk. exists (drop (length l) s). split; [by apply starts_with_inv | done].
Qed.

Lemma match_re_Alt {X} (a b : regex) s caps (k : pystr → captures → option X) x :
  match_re (Alt a b) s caps k = Some x →
  match_re a s caps k = Some x ∨ match_re b s caps k = Some x.
Proof. simpl. destruct (match_re a s caps k); [intros [= ->]; by left | by right]. Qed.

Lemma greedy_inv {X} cls need (s : pystr) (k : pystr → option X) x :
  greedy cls need s k = Some x →
  ∃ run rest, s = run ++ rest ∧ (need <= length run)%nat
              ∧ forallb (in_class cls) run = true ∧ k rest = Some x.
Proof.
  revert need. induction s as [|c s IH]; intros need; simpl.
  - destruct need; [|done]. intros Hk. exists [], []. by repeat split.
  - assert (Hstop : match need with O => k (c :: s) | S _ => None end = Some x →
                    ∃ run rest, c :: s = run ++ rest ∧ (need <= length run)%nat
                                ∧ forallb (in_class cls) run = true ∧ k rest = Some x).
    { destruct need; [|done]. intros Hk. exists [], (c :: s). by repeat split. }
    destruct (in_class cls c) eqn:Hc; [|exact Hstop].
    destruct (greedy cls (Nat.pred need) s k) as [y|] eqn:Hg; [|exact Hstop].
    intros [= ->]. destruct (IH _ Hg) as (run & rest & -> & Hn & Hall & Hk).
    exists (c :: run), rest. simpl. rewrite Hc, Hall. repeat split; [lia | done].
Qed.

Lemma take_app_length_diff {A} (l r : list A) :
  take (length (l ++ r) - length r) (l ++ r) = l.
Proof.
  rewrite length_app. replace (length l + length r - length r)%nat with (length l) by lia.
  by rewrite take_app_length.
Qed.




Lemma match_re_Seq {X} (a b : regex) s caps (k : pystr → captures → option X) :
  match_re (Seq a b) s caps k
  = match_re a s caps (fun s' caps' => match_re b s' caps' k).
Proof. reflexivity. Qed.

Lemma match_re_Group {X} name (a : regex) s caps (k : pystr → captures → option X) :
  match_re (Group name a) s caps k
  = match_re a s caps (fun s' caps' => k s' ((name, take (length s - length s') s) :: caps')).
Proof. reflexivity. Qed.

Lemma match_re_Plus {X} cls s caps (k : pystr → captures → option X) x :
  match_re (Plus cls) s caps k = Some x →
  ∃ run rest, s = run ++ rest ∧ run ≠ [] ∧ forallb (in_class cls) run = true
              ∧ k rest caps = Some x.
Proof.
  simpl. intros (run & rest & -> & Hn & Hall & Hk)%greedy_inv.
  exists run, rest. repeat split; try done. intros ->. simpl in Hn. lia.
Qed.




(** ** The monad *)

Lemma emit_record (ev : event) (w : world) : emit ev w = (Ok tt, record [ev] w).
Proof. reflexivity. Qed.

Lemma call_record {A} (ev : event) (answer : list event → result A) (w : world) :
  call ev answer w = (answer (trace w), record [ev] w).
Proof. reflexivity. Qed.

Lemma record_record (evs1 evs2 : list event) (w : world) :
  record evs2 (record evs1 w) = record (evs1 ++ evs2) w.
Proof. unfold record. simpl. by rewrite app_assoc. Qed.

Lemma new_events_record (evs : list event) (w : world) : new_events w (record evs w) = evs.
Proof. unfold new_events, record. simpl. by rewrite drop_app_length. Qed.

(** Decides which handler an exception meets and merges the events
    recorded so far. *)
Ltac decide_handlers :=
  repeat match goal with
         | |- context [bool_decide (?a = ?b)] =>
             first [ rewrite (bool_decide_eq_true_2 (a = b)) by done
                   | rewrite (bool_decide_eq_false_2 (a = b)) by done ]
         end;
  rewrite ?emit_record, ?call_record, ?record_record; cbn [app].

(** ** The resolution engine *)



(** The Atlas branch of [search_ffn], in every world and for every
    behaviour of the clients. *)
Lemma search_ffn_with_id (name_or_url : pystr) (w : world) (fic_id : Z) :
  extract_fic_id name_or_url = Some fic_id → fic_id ≠ 0 →
  search_ffn name_or_url w
  = match atlas_get_story_metadata (trace w) fic_id with
    | Ok answer =>
        (Ok (AtlasStory <$> answer), record [Call_atlas_get_story_metadata fic_id] w)
    | Raise AtlasException =>
        let w1 := record [Call_atlas_get_story_metadata fic_id;
                          Log_warning msg_atlas_failed AtlasException] w in
        match fichub_get_story_metadata (trace w1) name_or_url with
        | Ok answer =>
            (Ok (FicHubStory <$> answer),
             record [Call_fichub_get_story_metadata name_or_url] w1)
        | Raise FicHubException =>
            (Ok None,
             record [Call_fichub_get_story_metadata name_or_url;
                     Log_warning msg_atlas_fichub_failed FicHubException] w1)
        | Raise e => (Raise e, record [Call_fichub_get_story_metadata name_or_url] w1)
        end
    | Raise e => (Raise e, record [Call_atlas_get_story_metadata fic_id] w)
    end.
Proof.
  intros Hid Hnz. unfold search_ffn. rewrite Hid, (bool_decide_eq_true_2 _ Hnz).
  unfold try_except, mbind, M_bind, bind, mret, M_ret, ret.
  rewrite call_record.
  destruct (atlas_get_story_metadata (trace w) fic_id) as [answer|[]];
    decide_handlers; try reflexivity.
  destruct (fichub_get_story_metadata _ name_or_url) as [answer|[]];
    decide_handlers; reflexivity.
Qed.

(** C4, as amended. When [extract_fic_id] finds an id other than 0,
    [search_ffn] asks Atlas first; FicHub is called if and only if Atlas
    raised [AtlasException]; an answer of Atlas, [None] included, is the
    result; when FicHub is called its answer is the result, and when it
    raises [FicHubException] too the result is [None], not an exception. *)
Theorem search_ffn_fallback (name_or_url : pystr) (w : world) (fic_id : Z) :
  extract_fic_id name_or_url = Some fic_id → fic_id ≠ 0 →
  let run := search_ffn name_or_url w in
  let w1 := record [Call_atlas_get_story_metadata fic_id;
                    Log_warning msg_atlas_failed AtlasException] w in
  (existsb is_fichub_call (new_events w run.2) = true
   ↔ atlas_get_story_metadata (trace w) fic_id = Raise AtlasException)
  ∧ (∀ answer, atlas_get_story_metadata (trace w) fic_id = Ok answer →
               run.1 = Ok (AtlasStory <$> answer))
  ∧ (atlas_get_story_metadata (trace w) fic_id = Raise AtlasException →
     (∀ answer, fichub_get_story_metadata (trace w1) name_or_url = Ok answer →
                run.1 = Ok (FicHubStory <$> answer))
     ∧ (fichub_get_story_metadata (trace w1) name_or_url = Raise FicHubException →
        run.1 = Ok None)).
Proof.
  intros Hid Hnz run w1. subst run w1.
  rewrite (search_ffn_with_id _ _ _ Hid Hnz).
  destruct (atlas_get_story_metadata (trace w) fic_id) as [answer|[]] eqn:Hatlas;
    try (cbn [fst snd]; rewrite new_events_record;
         split; [split; [discriminate | discriminate]|];
         split; [by intros ? [= <-] | discriminate]).
  cbv zeta.
  destruct (fichub_get_story_metadata _ name_or_url) as [answer|[]] eqn:Hfichub;
    cbn [fst snd]; rewrite record_record, new_events_record;
    (split; [split; [done | reflexivity]|]);
    (split; [discriminate|]); intros _;
    (split; [by intros ? [= <-] || discriminate | done || discriminate]).
Qed.

(** [search_other] has no handler: whatever FicHub raises reaches the
    caller. *)
Lemma search_other_propagates (url : pystr) (w : world) (e : exn) :
  fichub_get_story_metadata (trace w) url = Raise e →
  search_other url w = (Raise e, record [Call_fichub_get_story_metadata url] w).
Proof.
  intros H. unfold search_other, mbind, M_bind, bind. rewrite call_record, H. reflexivity.
Qed.

(** In the batch a FanFiction.Net link goes to the Atlas client without
    a handler. *)
Lemma resolve_match_FFN_propagates (m : re_match) ds (w : world) (e : exn) :
  lastgroup m = Some "FFN"%string → group m "ffn_id" = Some ds →
  atlas_get_story_metadata (trace w) (int_of_digits ds) = Raise e →
  resolve_match m w
  = (Raise e, record [Call_atlas_get_story_metadata (int_of_digits ds)] w).
Proof.
  intros Hl Hg H. unfold resolve_match. rewrite Hl, Hg. decide_handlers.
  unfold int_of_group, mbind, M_bind, bind, mret, M_ret, ret.
  rewrite call_record, H. reflexivity.
Qed.

(** ** What the bot posts *)























(** ** More on the settings store *)

Lemma location_ltb_irrefl (a : AutoresponseLocation) : location_ltb a a = false.
Proof.
  unfold location_ltb. rewrite !Z.ltb_irrefl, Z.eqb_refl. reflexivity.
Qed.

Lemma location_ltb_trans (a b c : AutoresponseLocation) :
  location_ltb a b = true → location_ltb b c = true → location_ltb a c = true.
Proof.
  unfold location_ltb. intros Hab Hbc.
  apply orb_true_iff in Hab. apply orb_true_iff in Hbc. apply orb_true_iff.
  rewrite !andb_true_iff, !Z.ltb_lt, !Z.eqb_eq in *. lia.
Qed.

Lemma location_ltb_total (a b : AutoresponseLocation) :
  a ≠ b → location_ltb a b = false → location_ltb b a = true.
Proof.
  destruct a as [ga ca], b as [gb cb]. unfold location_ltb. simpl. intros Hne Hab.
  apply orb_false_iff in Hab as [Hg Hc]. apply Z.ltb_ge in Hg.
  apply andb_false_iff in Hc. rewrite Z.eqb_neq, Z.ltb_ge in Hc.
  apply orb_true_iff. rewrite andb_true_iff, !Z.ltb_lt, Z.eqb_eq.
  destruct (decide (ga = gb)) as [->|Hg']; [|lia].
  right. split; [done|]. destruct (decide (ca = cb)) as [->|?]; [done | lia].
Qed.

Lemma insert_row_sorted (r : AutoresponseLocation) rows :
  StronglySorted (fun a b => location_ltb a b = true) rows →
  StronglySorted (fun a b => location_ltb a b = true) (insert_row r rows).
Proof.
  induction 1 as [|x rows Hsorted IH Hall]; simpl.
  - repeat constructor.
  - case_bool_decide as Hrx; [by constructor|].
    destruct (location_ltb r x) eqn:Hlt.
    + constructor; [by constructor|]. constructor; [done|].
      eapply Forall_impl; [exact Hall|]. intros y Hy. by eapply location_ltb_trans.
    + constructor; [exact IH|].
      apply Forall_forall. intros y Hy%elem_of_insert_row.
      destruct Hy as [->|Hy]; [by apply location_ltb_total|].
      rewrite Forall_forall in Hall. by apply Hall.
Qed.

(** A row that is in the table is not inserted again. *)
Lemma insert_row_present (r : AutoresponseLocation) rows :
  StronglySorted (fun a b => location_ltb a b = true) rows →
  r ∈ rows → insert_row r rows = rows.
Proof.
  induction 1 as [|x rows Hsorted IH Hall]; simpl; [by intros ?%elem_of_nil|].
  intros Hin. case_bool_decide as Hrx; [done|].
  apply elem_of_cons in Hin as [->|Hin]; [done|].
  rewrite Forall_forall in Hall. specialize (Hall r Hin).
  destruct (location_ltb r x) eqn:Hlt.
  - pose proof (location_ltb_trans _ _ _ Hlt Hall) as Hrr.
    by rewrite location_ltb_irrefl in Hrr.
  - f_equal. by apply IH.
Qed.

Lemma fold_insert_row_sorted locations rows :
  StronglySorted (fun a b => location_ltb a b = true) rows →
  StronglySorted (fun a b => location_ltb a b = true)
    (fold_left (fun acc l => insert_row l acc) locations rows).
Proof.
  revert rows. induction locations as [|l ls IH]; intros rows Hs; simpl; [done|].
  apply IH. by apply insert_row_sorted.
Qed.

Lemma fold_insert_row_present locations rows :
  StronglySorted (fun a b => location_ltb a b = true) rows →
  (∀ x, x ∈ locations → x ∈ rows) →
  fold_left (fun acc l => insert_row l acc) locations rows = rows.
Proof.
  induction locations as [|l ls IH]; intros Hs Hin; simpl; [done|].
  rewrite insert_row_present; [|done|apply Hin; by left].
  apply IH; [done|]. intros x Hx. apply Hin. by right.
Qed.

(** The store that [_add] leaves on an initialised database. *)
Lemma _add_store (db : database) rows l ls :
  db !! "webfic_autoresponse_settings"%string = Some rows →
  _add db (l :: ls)
  = (Ok (filter (fun r => guild_id r = guild_id l)
                (fold_left (fun acc l => insert_row l acc) (l :: ls) rows)),
     <["webfic_autoresponse_settings"%string :=
         fold_left (fun acc l => insert_row l acc) (l :: ls) rows]> db).
Proof.
  intros Hrows. unfold _add, with_conn, executemany, prepare.
  change (statement_table INSERT_CHANNEL_STATEMENT) with "webfic_autoresponse_settings"%string.
  rewrite Hrows.
  rewrite (run_many_insert db rows (l :: ls) Hrows).
  unfold py_index. simpl. unfold execute, prepare, run_statement. simpl.
  rewrite lookup_insert_eq. simpl. reflexivity.
Qed.

Lemma _add_no_table (db : database) l ls :
  db !! "webfic_autoresponse_settings"%string = None →
  _add db (l :: ls) = (Raise SQLError, db).
Proof.
  intros Hnone. unfold _add, with_conn, executemany, prepare.
  change (statement_table INSERT_CHANNEL_STATEMENT) with "webfic_autoresponse_settings"%string.
  by rewrite Hnone.
Qed.

Lemma _drop_store (db : database) locations : (_drop db locations).2 = db.
Proof.
  destruct locations as [|l ls]; [reflexivity|].
  by destruct (_drop_nonempty_raises db l ls) as (e & -> & _).
Qed.


Lemma _setup_db_settings (db : database) :
  (_setup_db db).2 !! "webfic_autoresponse_settings"%string
  = Some (default [] (db !! "webfic_autoresponse_settings"%string)).
Proof.
  unfold _setup_db, with_conn, execute, prepare, run_statement. simpl.
  destruct (db !! "webfic_autoresponse_settings"%string) as [rows|] eqn:Hrows; simpl.
  - by rewrite Hrows.
  - by rewrite lookup_insert_eq.
Qed.

(** X1. [_setup_db] always succeeds; afterwards the settings table exists,
    empty when it was missing; every table that existed keeps its rows;
    running it again changes nothing. *)
Theorem setup_db_creates_once (db : database) :
  ∃ db', _setup_db db = (Ok tt, db')
         ∧ db' !! "webfic_autoresponse_settings"%string
           = Some (default [] (db !! "webfic_autoresponse_settings"%string))
         ∧ (∀ t rows, db !! t = Some rows → db' !! t = Some rows)
         ∧ _setup_db db' = (Ok tt, db').
Proof.
  unfold _setup_db, with_conn, execute, prepare, run_statement. simpl.
  destruct (db !! "webfic_autoresponse_settings"%string) as [rows|] eqn:Hrows.
  - exists db. rewrite Hrows. by repeat split.
  - eexists. split; [reflexivity|]. rewrite lookup_insert_eq. repeat split.
    intros t rows Ht. rewrite lookup_insert_ne; [done|]. by intros <-; rewrite Hrows in Ht.
Qed.

(** X2. Every operation of the store keeps the rows of the settings table
    in strict primary-key order, hence without duplicates. *)
Theorem store_operations_keep_order (db : database) locations (guild : Z) :
  settings_sorted db →
  settings_sorted (_setup_db db).2
  ∧ settings_sorted (_add db locations).2
  ∧ settings_sorted (_drop db locations).2
  ∧ settings_sorted (_clear db guild).2.
Proof.
  intros Hsorted. repeat split.
  - intros rows. rewrite _setup_db_settings. intros [= <-].
    destruct (db !! "webfic_autoresponse_settings"%string) as [rows|] eqn:Hrows; simpl.
    + by apply Hsorted.
    + constructor.
  - destruct locations as [|l ls]; [exact Hsorted|].
    destruct (db !! "webfic_autoresponse_settings"%string) as [rows|] eqn:Hrows.
    + rewrite (_add_store _ _ _ _ Hrows). simpl. intros rows'.
      rewrite lookup_insert_eq. intros [= <-].
      apply (fold_insert_row_sorted (l :: ls)). by apply Hsorted.
    + by rewrite (_add_no_table _ _ _ Hrows).
  - by rewrite _drop_store.
  - intros rows. rewrite _clear_keeps_settings. apply Hsorted.
Qed.


(** X4. With the table in primary-key order, adding the same batch a second
    time changes nothing and returns the same: rows already present are
    left alone. This holds as well when the first call raised. *)
Theorem add_twice_is_add_once (db : database) locations :
  settings_sorted db →
  _add (_add db locations).2 locations = _add db locations.
Proof.
  intros Hsorted. destruct locations as [|l ls]; [reflexivity|].
  destruct (db !! "webfic_autoresponse_settings"%string) as [rows|] eqn:Hrows.
  - rewrite (_add_store _ _ _ _ Hrows). cbn [snd].
    rewrite (_add_store _ (fold_left (fun acc l => insert_row l acc) (l :: ls) rows));
      [|apply lookup_insert_eq].
    rewrite insert_insert_eq.
    rewrite (fold_insert_row_present (l :: ls)); [done| |].
    + apply (fold_insert_row_sorted (l :: ls)). by apply Hsorted.
    + intros x Hx. apply elem_of_fold_insert_row. by left.
  - rewrite (_add_no_table _ _ _ Hrows). cbn [snd]. by apply _add_no_table.
Qed.


(** X6. Neither [_drop] nor [_clear] ever removes a row of the settings
    table: in every state of the database and for every argument, the
    queries for all rows and for the rows of a guild answer after them as
    they did before. *)
Theorem deletions_leave_settings (db : database) locations (guild g : Z) :
  (_drop db locations).2 = db
  ∧ (_query (_clear db guild).2 SELECT_ALL_STATEMENT []).1
    = (_query db SELECT_ALL_STATEMENT []).1
  ∧ (_query (_clear db guild).2 SELECT_BY_GUILD_STATEMENT [g]).1
    = (_query db SELECT_BY_GUILD_STATEMENT [g]).1.
Proof.
  split; [apply _drop_store|].
  pose proof (_clear_keeps_settings db guild) as Hkeep.
  unfold _query, with_conn, execute, prepare, run_statement. simpl.
  rewrite Hkeep.
  split; by destruct (db !! "webfic_autoresponse_settings"%string).
Qed.

(** ** More on the link detector *)

(** A successful match ends in the continuation, on a suffix of the text. *)
Lemma match_re_continues {X} (r : regex) :
  ∀ s caps (k : pystr → captures → option X) x,
    match_re r s caps k = Some x →
    ∃ consumed s' caps', s = consumed ++ s' ∧ k s' caps' = Some x.
Proof.
  induction r as [|l|a IHa b IHb|a IHa b IHb|cls|cls|name a IHa]; intros s caps k x H.
  - by exists [], s, caps.
  - apply match_re_Lit in H as (r & -> & H). by exists l, r, caps.
  - rewrite match_re_Seq in H.
    apply IHa in H as (c1 & s1 & caps1 & -> & H).
    apply IHb in H as (c2 & s2 & caps2 & -> & H).
    exists (c1 ++ c2), s2, caps2. by rewrite app_assoc.
  - apply match_re_Alt in H as [H|H]; [by apply IHa in H | by apply IHb in H].
  - apply match_re_Plus in H as (run & rest & -> & _ & _ & H). by exists run, rest, caps.
  - simpl in H. apply greedy_inv in H as (run & rest & -> & _ & _ & H).
    by exists run, rest, caps.
  - rewrite match_re_Group in H. apply IHa in H as (c & s' & caps' & -> & H).
    by exists c, s', ((name, take (length (c ++ s') - length s') (c ++ s')) :: caps').
Qed.

(** A group that matched is the last one to close when nothing follows
    it in the pattern. *)
Lemma match_here_Group_last name (a : regex) (s0 s : pystr) caps (m : re_match) :
  match_re (Group name a) s caps
    (fun s' caps' =>
       Some {| group0 := take (length s0 - length s') s0; groups := caps'; after := s' |})
  = Some m →
  ∃ text rest, groups m = (name, text) :: rest.
Proof.
  rewrite match_re_Group. intros (c & s' & caps' & -> & H)%match_re_continues.
  injection H as <-. by eexists _, _.
Qed.

Lemma finditer_from_match_here (r : regex) (s : pystr) :
  ∀ skip m, m ∈ finditer_from r skip s →
            ∃ before s', s = before ++ s' ∧ match_here r s' = Some m.
Proof.
  induction s as [|c s IH]; intros skip m.
  - destruct skip; simpl; [|by intros ?%elem_of_nil].
    destruct (match_here r []) as [m'|] eqn:Hm; [|by intros ?%elem_of_nil].
    intros ->%list_elem_of_singleton. by exists [], [].
  - destruct skip as [|n]; simpl.
    + destruct (match_here r (c :: s)) as [m'|] eqn:Hm.
      * intros [->|Hin]%elem_of_cons; [by exists [], (c :: s)|].
        apply IH in Hin as (before & s' & -> & H). by exists (c :: before), s'.
      * intros (before & s' & -> & H)%IH. by exists (c :: before), s'.
    + intros (before & s' & -> & H)%IH. by exists (c :: before), s'.
Qed.

(** The alternatives of the combined pattern, one after the other. *)
Lemma story_website_regex_alternatives (s : pystr) (m : re_match) :
  match_here STORY_WEBSITE_REGEX s = Some m →
  ∃ site text rest,
    site ∈ STORY_WEBSITE_STORE ∧ groups m = (acronym site, text) :: rest.
Proof.
  unfold match_here, STORY_WEBSITE_REGEX. cbn [map STORY_WEBSITE_STORE alternation].
  intros H.
  apply match_re_Alt in H as [H|H].
  { rewrite match_re_Seq in H. apply match_re_continues in H as (c & s' & caps' & -> & H).
    cbn [acronym FFN_site] in H.
    (* the scheme has no group: the captures are still empty *)
    rewrite match_re_Group in H. apply match_re_continues in H as (c2 & s2 & caps2 & _ & H).
    injection H as <-. exists FFN_site. eexists _, _. split; [|reflexivity].
    unfold STORY_WEBSITE_STORE. set_solver. }
  repeat (apply match_re_Alt in H as [H|H];
          [apply match_here_Group_last in H as (text & rest & ->);
           eexists _, text, rest; split; [|reflexivity];
           unfold STORY_WEBSITE_STORE; set_solver|]).
  apply match_here_Group_last in H as (text & rest & ->).
  eexists _, text, rest; split; [|reflexivity].
  unfold STORY_WEBSITE_STORE; set_solver.
Qed.

(** X7. Every match that the detector reports, for any text, is tagged
    with the short code of a registered site: [lastgroup] is never [None],
    so the last branch of the loop of [get_ff_data_from_links] is never
    taken. *)
Theorem detected_links_are_tagged (text : pystr) (m : re_match) :
  m ∈ finditer STORY_WEBSITE_REGEX text →
  ∃ site, site ∈ STORY_WEBSITE_STORE ∧ lastgroup m = Some (acronym site).
Proof.
  intros (before & s' & _ & H)%finditer_from_match_here.
  apply story_website_regex_alternatives in H as (site & txt & rest & Hsite & Hg).
  exists site. split; [done|]. unfold lastgroup. by rewrite Hg.
Qed.






Lemma match_re_Lit_app {X} (l r : pystr) caps (k : pystr → captures → option X) :
  match_re (Lit l) (l ++ r) caps k = k r caps.
Proof. simpl. by rewrite starts_with_app, drop_app_length. Qed.

Lemma greedy_all {X} cls need (run : pystr) (k : pystr → option X) x :
  forallb (in_class cls) run = true → (need <= length run)%nat →
  k [] = Some x → greedy cls need run k = Some x.
Proof.
  revert need. induction run as [|c run IH]; intros need Hall Hneed Hk; simpl in *.
  - destruct need; [done | lia].
  - apply andb_true_iff in Hall as [-> Hall].
    rewrite (IH (Nat.pred need)); [done | done | lia | done].
Qed.

Lemma re_search_here (r : regex) (s : pystr) (m : re_match) :
  match_here r s = Some m → re_search r s = Some m.
Proof. intros H. destruct s; simpl; by rewrite H. Qed.

(** Soundness of the AO3 pattern for any continuation. *)
Lemma ao3_pattern_continues {X} (s : pystr) caps (k : pystr → captures → option X) x :
  match_re (story_regex AO3_site) s caps k = Some x →
  ∃ prefix ty ds rest,
    (prefix = py "www." ∨ prefix = [])
    ∧ (ty = py "works" ∨ ty = py "series")
    ∧ ds ≠ [] ∧ forallb is_digit ds = true
    ∧ s = prefix ++ py "archiveofourown.org/" ++ ty ++ py "/" ++ ds ++ rest
    ∧ k rest (("ao3_id"%string, ds) :: ("type"%string, ty) :: caps) = Some x.
Proof.
  cbn [story_regex AO3_site seq_of fold_right]. rewrite match_re_Seq. unfold www_opt.
  assert (Htail : ∀ r,
            match_re (Seq (Lit (py "archiveofourown.org/"))
                        (Seq (Group "type" (Alt (Lit (py "works")) (Lit (py "series"))))
                           (Seq (Lit (py "/")) (Seq (Group "ao3_id" (Plus Digit)) Eps))))
              r caps k = Some x →
            ∃ ty ds rest,
              (ty = py "works" ∨ ty = py "series")
              ∧ ds ≠ [] ∧ forallb is_digit ds = true
              ∧ r = py "archiveofourown.org/" ++ ty ++ py "/" ++ ds ++ rest
              ∧ k rest (("ao3_id"%string, ds) :: ("type"%string, ty) :: caps) = Some x).
  { intros r. rewrite match_re_Seq. intros (r1 & -> & H)%match_re_Lit.
    rewrite match_re_Seq, match_re_Group in H.
    apply match_re_Alt in H as [H|H];
      apply match_re_Lit in H as (r2 & -> & H);
      rewrite take_app_length_diff, match_re_Seq in H;
      apply match_re_Lit in H as (r3 & -> & H);
      rewrite match_re_Seq, match_re_Group in H;
      apply match_re_Plus in H as (ds & rest & -> & Hne & Hall & H);
      cbn [match_re] in H; rewrite take_app_length_diff in H;
      eexists _, ds, rest; (split; [by (left + right)|]); by repeat split. }
  intros [H|H]%match_re_Alt.
  - apply match_re_Lit in H as (r & -> & H).
    apply Htail in H as (ty & ds & rest & Hty & Hne & Hall & -> & H).
    exists (py "www."), ty, ds, rest. repeat split; try done. by left.
  - cbn [match_re] in H.
    apply Htail in H as (ty & ds & rest & Hty & Hne & Hall & -> & H).
    exists [], ty, ds, rest. repeat split; try done. by right.
Qed.

(** Completeness of the AO3 pattern on a text that is a whole link. *)
Lemma ao3_pattern_matches (prefix ty ds : pystr) :
  (prefix = py "www." ∨ prefix = []) → (ty = py "works" ∨ ty = py "series") →
  ds ≠ [] → forallb is_digit ds = true →
  match_here (story_regex AO3_site) (prefix ++ py "archiveofourown.org/" ++ ty ++ py "/" ++ ds)
  = Some {| group0 := prefix ++ py "archiveofourown.org/" ++ ty ++ py "/" ++ ds;
            groups := [("ao3_id"%string, ds); ("type"%string, ty)];
            after := [] |}.
Proof.
  intros Hprefix Hty Hne Hall. unfold match_here.
  set (u := prefix ++ py "archiveofourown.org/" ++ ty ++ py "/" ++ ds).
  cbn [story_regex AO3_site seq_of fold_right]. rewrite match_re_Seq. unfold www_opt.
  assert (Htail :
            match_re (Seq (Lit (py "archiveofourown.org/"))
                        (Seq (Group "type" (Alt (Lit (py "works")) (Lit (py "series"))))
                           (Seq (Lit (py "/")) (Seq (Group "ao3_id" (Plus Digit)) Eps))))
              (py "archiveofourown.org/" ++ ty ++ py "/" ++ ds) []
              (fun s' caps =>
                 Some {| group0 := take (length u - length s') u; groups := caps; after := s' |})
            = Some {| group0 := u;
                      groups := [("ao3_id"%string, ds); ("type"%string, ty)];
                      after := [] |}).
  { rewrite match_re_Seq, match_re_Lit_app, match_re_Seq, match_re_Group.
    assert (Hrest : ∀ caps,
              match_re (Seq (Lit (py "/")) (Seq (Group "ao3_id" (Plus Digit)) Eps))
                (py "/" ++ ds) caps
                (fun s' caps' =>
                   Some {| group0 := take (length u - length s') u;
                           groups := caps'; after := s' |})
              = Some {| group0 := u; groups := ("ao3_id"%string, ds) :: caps; after := [] |}).
    { intros caps. rewrite match_re_Seq, match_re_Lit_app, match_re_Seq, match_re_Group.
      cbn [match_re]. apply greedy_all; [done | destruct ds; [done | simpl; lia] |].
      cbn [length]. rewrite !Nat.sub_0_r, !firstn_all. reflexivity. }
    destruct Hty as [->| ->].
    - cbn [match_re].
      change (match_re (Lit (py "works")) ?s ?c ?k) with (match_re (Lit (py "works")) s c k).
      rewrite starts_with_app, drop_app_length, take_app_length_diff.
      change (if starts_with (py "/") (py "/" ++ ds) then _ else _)
        with (match_re (Seq (Lit (py "/")) (Seq (Group "ao3_id" (Plus Digit)) Eps))
                (py "/" ++ ds) [("type"%string, py "works")]
                (fun s' caps' =>
                   Some {| group0 := take (length u - length s') u;
                           groups := caps'; after := s' |})).
      by rewrite Hrest.
    - cbn [match_re].
      change (starts_with (py "works") (py "series" ++ py "/" ++ ds)) with false.
      cbn iota.
      rewrite starts_with_app, drop_app_length, take_app_length_diff.
      change (if starts_with (py "/") (py "/" ++ ds) then _ else _)
        with (match_re (Seq (Lit (py "/")) (Seq (Group "ao3_id" (Plus Digit)) Eps))
                (py "/" ++ ds) [("type"%string, py "series")]
                (fun s' caps' =>
                   Some {| group0 := take (length u - length s') u;
                           groups := caps'; after := s' |})).
      by rewrite Hrest. }
  destruct Hprefix as [Hp|Hp]; subst prefix.
  - cbn [match_re]. subst u. rewrite starts_with_app, drop_app_length.
    cbn [match_re] in Htail. by rewrite Htail.
  - cbn [match_re].
    change (starts_with (py "www.") ([] ++ py "archiveofourown.org/" ++ ty ++ py "/" ++ ds))
      with false.
    cbn iota. subst u. cbn [match_re] in Htail. exact Htail.
Qed.

Lemma story_website_regex_AO3 (s : pystr) (m : re_match) :
  match_here STORY_WEBSITE_REGEX s = Some m → lastgroup m = Some "AO3"%string →
  match_re (Group "AO3" (story_regex AO3_site)) s []
    (fun s' caps =>
       Some {| group0 := take (length s - length s') s; groups := caps; after := s' |})
  = Some m.
Proof.
  intros H Hlast.
  pose proof H as Halt.
  unfold match_here, STORY_WEBSITE_REGEX in H. cbn [map STORY_WEBSITE_STORE alternation] in H.
  apply match_re_Alt in H as [H|H].
  { exfalso. rewrite match_re_Seq in H.
    apply match_re_continues in H as (c & s' & caps' & _ & H).
    rewrite match_re_Group in H. apply match_re_continues in H as (c2 & s2 & caps2 & _ & H).
    injection H as <-. by cbv in Hlast. }
  apply match_re_Alt in H as [H|H].
  { exfalso. apply match_here_Group_last in H as (text & rest & Hg).
    unfold lastgroup in Hlast. rewrite Hg in Hlast. by cbv in Hlast. }
  apply match_re_Alt in H as [H|H]; [exact H|].
  exfalso.
  repeat (apply match_re_Alt in H as [H|H];
          [apply match_here_Group_last in H as (text & rest & Hg);
           unfold lastgroup in Hlast; rewrite Hg in Hlast; simpl in Hlast; congruence|]).
  apply match_here_Group_last in H as (text & rest & Hg).
  unfold lastgroup in Hlast. rewrite Hg in Hlast. simpl in Hlast. congruence.
Qed.

(** X9. In the batch an AO3 link is handed to [search_ao3] as its matched
    text, and [search_ao3] searches the pattern in it again: that second
    search finds the whole text, with the sub-type and the id that the
    detector captured. The matched text starts with the host name, or with
    "www.": the scheme is not part of it. *)
Theorem ao3_links_are_parsed_again_alike (text : pystr) (m : re_match) :
  m ∈ finditer STORY_WEBSITE_REGEX text → lastgroup m = Some "AO3"%string →
  ∃ prefix ty ds m',
    (prefix = py "www." ∨ prefix = [])
    ∧ (ty = py "works" ∨ ty = py "series")
    ∧ ds ≠ [] ∧ forallb is_digit ds = true
    ∧ group0 m = prefix ++ py "archiveofourown.org/" ++ ty ++ py "/" ++ ds
    ∧ group m "type" = Some ty ∧ group m "ao3_id" = Some ds
    ∧ resolve_match m = search_ao3 (group0 m)
    ∧ re_search (story_regex AO3_site) (group0 m) = Some m'
    ∧ group0 m' = group0 m
    ∧ group m' "type" = Some ty ∧ group m' "ao3_id" = Some ds.
Proof.
  intros (before & s & _ & H)%finditer_from_match_here Hlast.
  apply story_website_regex_AO3 in H; [|done].
  rewrite match_re_Group in H.
  apply ao3_pattern_continues in H as (prefix & ty & ds & rest & Hp & Hty & Hne & Hall & -> & H).
  apply (inj Some) in H. subst m. cbn [group0 groups].
  assert (Hg0 : take (length (prefix ++ py "archiveofourown.org/" ++ ty ++ py "/" ++ ds ++ rest)
                      - length rest)
                  (prefix ++ py "archiveofourown.org/" ++ ty ++ py "/" ++ ds ++ rest)
                = prefix ++ py "archiveofourown.org/" ++ ty ++ py "/" ++ ds).
  { rewrite !app_assoc, take_app_length_diff. by rewrite <- !app_assoc. }
  rewrite Hg0.
  exists prefix, ty, ds. eexists. repeat split; try done.
  - apply re_search_here. by apply ao3_pattern_matches.
  - reflexivity.
  - reflexivity.
  - reflexivity.
Qed.

(** ** More on the card builders *)

(** X10. Under the contract of [textwrap.shorten], every card that a
    builder returns, for any story and at any time, has at most 6000
    units; a card of the Atlas or FicHub builder has at most 6000 less the
    length of the story's whole description. *)
Theorem every_card_within_budget (Hc : shorten_contract packages) now story_data e :
  strategy_wrapped now story_data = Ok e →
  embed_len e <= 6000
  ∧ match story_data with
    | AtlasStory story => embed_len e <= 6000 - len (atlas_description story)
    | FicHubStory story => embed_len e <= 6000 - len (fichub_description story)
    | _ => True
    end.
Proof.
  destruct story_data as [story|story|work|series]; simpl; intros Hrun.
  - pose proof (create_atlas_ffn_embed_size Hc _ _ _ Hrun).
    pose proof (len_nonneg (atlas_description story)). split; [lia | done].
  - pose proof (create_fichub_embed_size Hc _ _ _ Hrun).
    pose proof (len_nonneg (fichub_description story)). split; [lia | done].
  - split; [by eapply create_ao3_work_embed_within_budget | done].
  - split; [by eapply create_ao3_series_embed_within_budget | done].
Qed.

(** X11. The AO3 builders read the first author: for a work without
    authors, and for a series without creators, they raise [IndexError],
    whatever the other fields are. *)
Theorem ao3_cards_need_an_author (Hc : shorten_contract packages) now :
  (∀ work, work_authors work = [] →
           create_ao3_work_embed_wrapped now work = Raise IndexError)
  ∧ (∀ series, series_creators series = [] →
               create_ao3_series_embed_wrapped now series = Raise IndexError).
Proof.
  split.
  - intros work Hnone. unfold create_ao3_work_embed_wrapped.
    destruct (shorten_tags_returns Hc (join (py ", ") (work_fandoms work))) as [f ->].
    destruct (shorten_tags_returns Hc (join (py ", ") (work_categories work))) as [g ->].
    destruct (shorten_tags_returns Hc (join (py ", ") (work_characters work))) as [c ->].
    cbn [mbind result_bind]. by rewrite Hnone.
  - intros series Hnone. unfold create_ao3_series_embed_wrapped. by rewrite Hnone.
Qed.

(** X12. The statistics of a FicHub card. For a story whose url contains
    "fanfiction.net", the three statistics reviews, favorites and follows
    are read without a default: if one is missing the builder raises
    [KeyError]. For any other url a missing statistic is left out: the
    builder then raises nothing but the [ValueError] of the last
    shortening. *)
Theorem fichub_card_statistics (Hc : shorten_contract packages) now story :
  (contains (py "fanfiction.net") (fichub_url story) = true →
   (fichub_stats story !! "reviews"%string = None
    ∨ fichub_stats story !! "favorites"%string = None
    ∨ fichub_stats story !! "follows"%string = None) →
   create_fichub_embed_wrapped now story = Raise KeyError)
  ∧ (contains (py "fanfiction.net") (fichub_url story) = false →
     ∀ e, create_fichub_embed_wrapped now story = Raise e → e = ValueError).
Proof.
  split.
  - intros Hffn Hmissing. unfold create_fichub_embed_wrapped.
    destruct (shorten_tags_returns Hc (join (py ", ") (fichub_fandoms story))) as [f ->].
    destruct (shorten_tags_returns Hc
                (join (py ", ") (default [] (fichub_more_meta story !! "category"%string))))
      as [g ->].
    destruct (shorten_tags_returns Hc (join (py ", ") (fichub_characters story))) as [c ->].
    cbn [mbind result_bind]. rewrite Hffn. cbn [mapM].
    destruct (fichub_stats story !! "reviews"%string) as [v1|]; [|reflexivity].
    destruct (fichub_stats story !! "favorites"%string) as [v2|]; [|reflexivity].
    destruct (fichub_stats story !! "follows"%string) as [v3|]; [|reflexivity].
    by destruct Hmissing as [?|[?|?]].
  - intros Hother e. unfold create_fichub_embed_wrapped. rewrite Hother.
    destruct (shorten_tags_returns Hc (join (py ", ") (fichub_fandoms story))) as [f ->].
    destruct (shorten_tags_returns Hc
                (join (py ", ") (default [] (fichub_more_meta story !! "category"%string))))
      as [g ->].
    destruct (shorten_tags_returns Hc (join (py ", ") (fichub_characters story))) as [c ->].
    cbn [mbind result_bind].
    destruct (contains (py "archiveofourown.org") (fichub_url story));
      cbn [mbind result_bind mret result_ret];
      match goal with
      | |- context [shorten ?t ?w ?p] =>
          pose proof (shorten_raises Hc t w p) as Hs; destruct (shorten t w p)
      end; cbn [mbind result_bind]; try discriminate;
      intros [= <-]; by destruct (Hs _ eq_refl).
Qed.

Lemma functools_cache_effect {K} `{EqDecision K}
    (table : world → list (K * Embed)) store wrapped (arg : K) (w : world) :
  (∀ t w, db_connection (store t w) = db_connection w ∧ clock (store t w) = clock w
          ∧ trace (store t w) = trace w) →
  let run := functools_cache table store wrapped arg w in
  db_connection run.2 = db_connection w ∧ clock run.2 = clock w ∧ trace run.2 = trace w
  ∧ (∀ e, run.1 = Raise e → run.2 = w).
Proof.
  intros Hstore. unfold functools_cache.
  destruct (cache_lookup arg (table w)); [by repeat split|].
  destruct (wrapped (clock w) arg); simpl; [|by repeat split].
  destruct (Hstore ((arg, a) :: table w) w) as (? & ? & ?). by repeat split.
Qed.

(** X13. Rendering has no effect but the memoisation: [ff_embed_factory]
    leaves the settings store, the clock and the trace as they were; when
    it raises, and when it renders [None], the world is unchanged. *)
Theorem rendering_only_memoises story_data (w : world) :
  let run := ff_embed_factory story_data w in
  db_connection run.2 = db_connection w ∧ clock run.2 = clock w ∧ trace run.2 = trace w
  ∧ (∀ e, run.1 = Raise e → run.2 = w)
  ∧ (story_data = None → run.2 = w).
Proof.
  destruct story_data as [[story|story|work|series]|]; cbn [ff_embed_factory].
  - destruct (functools_cache_effect cache_atlas store_atlas
                create_atlas_ffn_embed_wrapped story w) as (? & ? & ? & ?); by repeat split.
  - destruct (functools_cache_effect cache_fichub store_fichub
                create_fichub_embed_wrapped story w) as (? & ? & ? & ?); by repeat split.
  - destruct (functools_cache_effect cache_ao3_work store_ao3_work
                create_ao3_work_embed_wrapped work w) as (? & ? & ? & ?); by repeat split.
  - destruct (functools_cache_effect cache_ao3_series store_ao3_series
                create_ao3_series_embed_wrapped series w) as (? & ? & ? & ?); by repeat split.
  - by repeat split.
Qed.

Lemma functools_cache_sound {K} `{EqDecision K}
    (table : world → list (K * Embed)) store wrapped (arg : K) w e w1 :
  (∀ t w, table (store t w) = t) →
  Forall (fun p => ∃ now, wrapped now p.1 = Ok p.2) (table w) →
  functools_cache table store wrapped arg w = (Ok e, w1) →
  (∃ now, wrapped now arg = Ok e)
  ∧ Forall (fun p => ∃ now, wrapped now p.1 = Ok p.2) (table w1).
Proof.
  intros Hts Hsound. unfold functools_cache.
  destruct (cache_lookup arg (table w)) as [e0|] eqn:Hhit.
  - intros [= <- <-]. split; [|done].
    clear Hts. induction Hsound as [|[k e'] t Hhead _ IH]; simpl in Hhit; [done|].
    case_bool_decide as Hk; [|by apply IH]. injection Hhit as <-. by subst k.
  - destruct (wrapped (clock w) arg) as [e0|x] eqn:Hw; [|done].
    intros [= <- <-]. split; [by exists (clock w)|].
    rewrite Hts. constructor; [by exists (clock w) | done].
Qed.

Lemma functools_cache_frame {K B} `{EqDecision K}
    (table : world → list (K * Embed)) store wrapped (arg : K) w r w1
    (other : world → B) :
  (∀ t w, other (store t w) = other w) →
  functools_cache table store wrapped arg w = (r, w1) → other w1 = other w.
Proof.
  intros Hother. unfold functools_cache.
  destruct (cache_lookup arg (table w)); [by intros [= _ <-]|].
  destruct (wrapped (clock w) arg); intros [= _ <-]; [apply Hother | done].
Qed.

(** X14. The memoisation tables stay sound: if every memoised card is
    what its builder returned for the key at some time, the card that
    [ff_embed_factory] returns for a story is what the builder returns for
    that story at some time, and the tables are sound afterwards. *)
Theorem memoised_cards_are_built_cards story_data (w : world) e w1 :
  cache_sound w →
  ff_embed_factory (Some story_data) w = (Ok e, w1) →
  (∃ now, strategy_wrapped now story_data = Ok e) ∧ cache_sound w1.
Proof.
  intros (Hw & Hs & Ha & Hf) Hrun. unfold cache_sound.
  destruct story_data as [story|story|work|series]; cbn [ff_embed_factory] in Hrun.
  - destruct (functools_cache_sound cache_atlas store_atlas _ _ _ _ _
                ltac:(done) Ha Hrun) as [Hbuilt Ha'].
    rewrite (functools_cache_frame cache_atlas store_atlas _ _ _ _ _ cache_ao3_work ltac:(done) Hrun).
    rewrite (functools_cache_frame cache_atlas store_atlas _ _ _ _ _ cache_ao3_series ltac:(done) Hrun).
    rewrite (functools_cache_frame cache_atlas store_atlas _ _ _ _ _ cache_fichub ltac:(done) Hrun).
    done.
  - destruct (functools_cache_sound cache_fichub store_fichub _ _ _ _ _
                ltac:(done) Hf Hrun) as [Hbuilt Hf'].
    rewrite (functools_cache_frame cache_fichub store_fichub _ _ _ _ _ cache_ao3_work ltac:(done) Hrun).
    rewrite (functools_cache_frame cache_fichub store_fichub _ _ _ _ _ cache_ao3_series ltac:(done) Hrun).
    rewrite (functools_cache_frame cache_fichub store_fichub _ _ _ _ _ cache_atlas ltac:(done) Hrun).
    done.
  - destruct (functools_cache_sound cache_ao3_work store_ao3_work _ _ _ _ _
                ltac:(done) Hw Hrun) as [Hbuilt Hw'].
    rewrite (functools_cache_frame cache_ao3_work store_ao3_work _ _ _ _ _ cache_ao3_series ltac:(done) Hrun).
    rewrite (functools_cache_frame cache_ao3_work store_ao3_work _ _ _ _ _ cache_atlas ltac:(done) Hrun).
    rewrite (functools_cache_frame cache_ao3_work store_ao3_work _ _ _ _ _ cache_fichub ltac:(done) Hrun).
    done.
  - destruct (functools_cache_sound cache_ao3_series store_ao3_series _ _ _ _ _
                ltac:(done) Hs Hrun) as [Hbuilt Hs'].
    rewrite (functools_cache_frame cache_ao3_series store_ao3_series _ _ _ _ _ cache_ao3_work ltac:(done) Hrun).
    rewrite (functools_cache_frame cache_ao3_series store_ao3_series _ _ _ _ _ cache_atlas ltac:(done) Hrun).
    rewrite (functools_cache_frame cache_ao3_series store_ao3_series _ _ _ _ _ cache_fichub ltac:(done) Hrun).
    done.
Qed.

(** X15. The three tag lists of a card are each cut to 100 units before
    they are joined: under the contract of [textwrap.shorten] the text of
    the rating field (the third field of a work, Atlas or FicHub card) has
    at most 306 units. *)
Theorem details_field_is_bounded (Hc : shorten_contract packages) now story_data e f :
  strategy_wrapped now story_data = Ok e →
  (∀ series, story_data ≠ AO3Series series) →
  fields e !! 2%nat = Some f →
  len (field_value f) <= 306.
Proof.
  intros Hrun Hnot.
  assert (Hjoin : ∀ a b c : pystr,
            len a <= 100 → len b <= 100 → len c <= 100 →
            len (join bullet [a; b; c]) <= 306).
  { intros a b c Ha Hb Hcc. cbn [join]. rewrite !len_app.
    change (len bullet) with 3. lia. }
  destruct story_data as [story|story|work|series]; [| | |by destruct (Hnot series)];
    simpl in Hrun;
    [unfold create_atlas_ffn_embed_wrapped in Hrun
    | unfold create_fichub_embed_wrapped in Hrun
    | unfold create_ao3_work_embed_wrapped in Hrun];
    repeat step_result; subst e; intros [= <-]; cbn [field_value];
    apply Hjoin; by eapply (shorten_fits Hc).
Qed.

(** ** More on the paginated view *)

Lemma populate_works_returns (Hc : shorten_contract packages) works :
  ∀ i options, (length options + length works <= 25)%nat →
    ∃ out, populate_works i works options = Ok out
           ∧ length out = (length options + length works)%nat.
Proof.
  induction works as [|work works IH]; intros i options Hroom; cbn [populate_works length] in *.
  - exists options. split; [done | lia].
  - destruct (shorten_tags_returns Hc (work_summary work)) as [descr ->].
    cbn [mbind result_bind]. unfold add_option, len in *.
    destruct (Z.leb_spec 25 (Z.of_nat (length options))) as [?|_]; [lia|].
    cbn [mbind result_bind].
    destruct (IH (i + 1) (options ++ [{| option_label := str_of_int i ++ py ". " ++ work_title work;
                                         option_value := str_of_int i;
                                         option_description := descr |}]))
      as (out & -> & Hlen).
    + rewrite length_app. simpl in *. lia.
    + exists out. split; [done|]. rewrite Hlen, length_app. simpl. lia.
Qed.

Lemma populate_works_overflows (Hc : shorten_contract packages) works :
  ∀ i options, (length options <= 25)%nat → (25 < length options + length works)%nat →
    populate_works i works options = Raise ValueError.
Proof.
  induction works as [|work works IH]; intros i options Hle Hover;
    cbn [populate_works length] in *; [lia|].
  destruct (shorten_tags_returns Hc (work_summary work)) as [descr ->].
  cbn [mbind result_bind]. unfold add_option, len.
  destruct (Z.leb_spec 25 (Z.of_nat (length options))) as [?|Hlt]; [done|].
  cbn [mbind result_bind]. apply IH; rewrite length_app; simpl; lia.
Qed.

(** X16. Under the contract of [textwrap.shorten], a view is created for a
    series of at most 24 works: it shows page 0, has one option per page
    (N + 1), "previous" switched off, and "next" switched off exactly when
    the series has one work. For a series of 25 works or more the creation
    raises [ValueError]: the select menu takes 25 options. *)
Theorem view_creation (Hc : shorten_contract packages) (author : Z) (series : ao3_series) :
  ((length (works_list series) <= 24)%nat →
   ∃ view, AO3SeriesView_init author series = Ok view
           ∧ author_id view = author ∧ series_of view = series
           ∧ page_index view = 0
           ∧ length (select_page_options view) = S (length (works_list series))
           ∧ turn_to_previous_disabled view = true
           ∧ (turn_to_next_disabled view = true ↔ length (works_list series) = 1%nat)
           ∧ stopped view = false)
  ∧ ((25 <= length (works_list series))%nat →
     AO3SeriesView_init author series = Raise ValueError).
Proof.
  unfold AO3SeriesView_init, populate_select.
  destruct (shorten_tags_returns Hc (series_description series)) as [descr ->].
  cbn [mbind result_bind]. unfold add_option.
  change (25 <=? len (@nil SelectOption)) with false.
  cbn [mbind result_bind app]. split.
  - intros Hfew.
    match goal with
    | |- context [populate_works 1 (works_list series) ?options] =>
        destruct (populate_works_returns Hc (works_list series) 1 options)
          as (out & -> & Hlen); [simpl; lia|]
    end.
    cbn [mbind result_bind mret result_ret]. eexists. split; [reflexivity|].
    cbn [author_id series_of page_index select_page_options disable_page_buttons
         turn_to_previous_disabled turn_to_next_disabled stopped].
    repeat split; try done.
    + intros Hd%bool_decide_eq_true. unfold total_pages, len in Hd. cbn [series_of] in Hd. lia.
    + intros H1. apply bool_decide_eq_true. unfold total_pages, len. cbn [series_of]. lia.
  - intros Hmany. rewrite populate_works_overflows; [done | done | simpl; lia | simpl; lia].
Qed.

(** X17. Who can move the view. A press changes the view only when the
    view has not stopped, the button is not switched off and the user is
    the owner; in every other case the view is as before and no page is
    sent. *)
Theorem press_is_guarded (b : button) (user : Z) (self : AO3SeriesView) (w : world) :
  stopped self = true
  ∨ (match b with
     | previous_button => turn_to_previous_disabled self
     | next_button => turn_to_next_disabled self
     end) = true
  ∨ user ≠ author_id self →
  (press b user self w).1.2 = self
  ∧ (press b user self w).1.1 = Ok tt
  ∧ ∀ e, Response_edit_message e ∉ new_events w (press b user self w).2.
Proof.
  intros Hguard. unfold press.
  destruct (stopped self) eqn:Hstopped; cbn [orb].
  { repeat split. intros e. unfold new_events. rewrite drop_all. apply not_elem_of_nil. }
  destruct (match b with
            | previous_button => turn_to_previous_disabled self
            | next_button => turn_to_next_disabled self
            end) eqn:Hdisabled.
  { repeat split. intros e. unfold new_events. rewrite drop_all. apply not_elem_of_nil. }
  destruct Hguard as [?|[?|Hother]]; [done | done |].
  unfold interaction_check, mbind, M_bind, bind.
  rewrite bool_decide_eq_false_2 by done. rewrite emit_record.
  unfold mret, M_ret, ret. cbn [fst snd].
  repeat split. intros e. rewrite new_events_record.
  by intros [=]%list_elem_of_singleton.
Qed.

(** X18. [get_first_page] gives the card of the overview page whatever
    page is shown and leaves the view as it was; when the card cannot be
    built the exception leaves the view on page 0. *)
Theorem get_first_page_restores (self : AO3SeriesView) (w : world) :
  match create_ao3_series_embed (series_of self) w with
  | (Ok e, w') => get_first_page self w = (Ok e, self, w')
  | (Raise x, w') => get_first_page self w = (Raise x, set_page_index 0 self, w')
  end.
Proof.
  unfold get_first_page, format_page. cbn [page_index set_page_index series_of].
  rewrite bool_decide_eq_false_2 by (by intros H; apply H).
  destruct (create_ao3_series_embed (series_of self) w) as [[e|x] w']; [|done].
  by destruct self.
Qed.

(** X19. As long as no press fails, the buttons keep the index between 0
    and N - 1 and the flags of the buttons in step with it: from a view
    with at least one work whose index is in that range and whose flags
    are those that [disable_page_buttons] computes, a press that returns
    leads to such a view again. The last page, N, is not reached. *)
Theorem presses_stay_below_last_page (b : button) (user : Z) (self self' : AO3SeriesView)
    (w w' : world) :
  0 <= page_index self <= total_pages self - 1 →
  turn_to_previous_disabled self = bool_decide (page_index self = 0) →
  turn_to_next_disabled self = bool_decide (page_index self = total_pages self - 1) →
  press b user self w = (Ok tt, self', w') →
  0 <= page_index self' <= total_pages self' - 1
  ∧ turn_to_previous_disabled self' = bool_decide (page_index self' = 0)
  ∧ turn_to_next_disabled self' = bool_decide (page_index self' = total_pages self' - 1)
  ∧ series_of self' = series_of self.
Proof.
  intros Hrange Hprev Hnext. unfold press.
  destruct (stopped self); cbn [orb]; [by intros [= <- _]|].
  destruct (match b with
            | previous_button => turn_to_previous_disabled self
            | next_button => turn_to_next_disabled self
            end) eqn:Hdisabled; [by intros [= <- _]|].
  destruct (interaction_check self user w) as [[[|]|x] w1]; [|by intros [= <- _]|done].
  destruct b.
  - rewrite Hprev in Hdisabled. apply bool_decide_eq_false in Hdisabled.
    unfold turn_to_previous, update_page.
    destruct (format_page _ w1) as [[e|x] w2]; [|done].
    intros [= <- _]. cbn. unfold total_pages in *. cbn. repeat split; lia.
  - rewrite Hnext in Hdisabled. apply bool_decide_eq_false in Hdisabled.
    unfold turn_to_next, update_page.
    destruct (format_page _ w1) as [[e|x] w2]; [|done].
    intros [= <- _]. cbn. unfold total_pages in *. cbn. repeat split; lia.
Qed.

(** ** More on the resolution engine *)


(** X21. [search_ffn] without a usable id. When [extract_fic_id] finds no
    id, or the id 0, the query is sent to Atlas as a title pattern
    ["%query%"] with limit 1; the first story of the answer, or [None]
    when it is empty, is the result; there is no handler, so whatever the
    client raises reaches the caller, and FicHub is not called. *)
Theorem search_ffn_title_search (name_or_url : pystr) (w : world) :
  extract_fic_id name_or_url = None ∨ extract_fic_id name_or_url = Some 0 →
  search_ffn name_or_url w
  = match atlas_get_bulk_metadata (trace w) (py "%" ++ name_or_url ++ py "%") 1 with
    | Ok results =>
        (Ok (AtlasStory <$> head results),
         record [Call_atlas_get_bulk_metadata (py "%" ++ name_or_url ++ py "%") 1] w)
    | Raise e =>
        (Raise e, record [Call_atlas_get_bulk_metadata (py "%" ++ name_or_url ++ py "%") 1] w)
    end.
Proof.
  intros Hid. unfold search_ffn.
  assert (Htitle :
            (results ← call (Call_atlas_get_bulk_metadata (py "%" ++ name_or_url ++ py "%") 1)
                         (fun h => atlas_get_bulk_metadata h (py "%" ++ name_or_url ++ py "%") 1);
             mret (AtlasStory <$> head results)) w
            = match atlas_get_bulk_metadata (trace w) (py "%" ++ name_or_url ++ py "%") 1 with
              | Ok results =>
                  (Ok (AtlasStory <$> head results),
                   record [Call_atlas_get_bulk_metadata (py "%" ++ name_or_url ++ py "%") 1] w)
              | Raise e =>
                  (Raise e,
                   record [Call_atlas_get_bulk_metadata (py "%" ++ name_or_url ++ py "%") 1] w)
              end).
  { unfold mbind, M_bind, bind. rewrite call_record.
    by destruct (atlas_get_bulk_metadata (trace w) (py "%" ++ name_or_url ++ py "%") 1). }
  destruct Hid as [-> | ->]; [exact Htitle|].
  rewrite bool_decide_eq_false_2 by (by intros H; apply H). exact Htitle.
Qed.

Lemma set_db_same (w : world) : set_db (db_connection w) w = w.
Proof. by destruct w. Qed.



Lemma keeps_store_ret {A} (a : A) : keeps_store (mret a).
Proof. by intros w. Qed.

Lemma keeps_store_emit (ev : event) : keeps_store (emit ev).
Proof. by intros w. Qed.

Lemma keeps_store_call {A} ev (answer : list event → result A) : keeps_store (call ev answer).
Proof. by intros w. Qed.

Lemma keeps_store_bind {A B} (c : M A) (k : A → M B) :
  keeps_store c → (∀ a, keeps_store (k a)) → keeps_store (c ≫= k).
Proof.
  intros Hc Hk w. unfold mbind, M_bind, bind. specialize (Hc w).
  destruct (c w) as [[a|e] w']; simpl in *; [|done]. by rewrite Hk.
Qed.

Lemma keeps_store_try_except {A} (c : M A) handled (h : exn → M A) :
  keeps_store c → (∀ e, keeps_store (h e)) → keeps_store (try_except c handled h).
Proof.
  intros Hc Hh w. unfold try_except. specialize (Hc w).
  destruct (c w) as [[a|e] w']; simpl in *; [done|].
  destruct (handled e); [by rewrite Hh | done].
Qed.

Lemma keeps_store_ff_embed_factory story_data : keeps_store (ff_embed_factory story_data).
Proof.
  intros w. destruct story_data as [[story|story|work|series]|]; cbn [ff_embed_factory].
  - by destruct (functools_cache_effect cache_atlas store_atlas
                   create_atlas_ffn_embed_wrapped story w) as (? & _).
  - by destruct (functools_cache_effect cache_fichub store_fichub
                   create_fichub_embed_wrapped story w) as (? & _).
  - by destruct (functools_cache_effect cache_ao3_work store_ao3_work
                   create_ao3_work_embed_wrapped work w) as (? & _).
  - by destruct (functools_cache_effect cache_ao3_series store_ao3_series
                   create_ao3_series_embed_wrapped series w) as (? & _).
  - done.
Qed.

Lemma keeps_store_async_for {A} (gen : list (M A)) (body : A → M unit) :
  Forall keeps_store gen → (∀ a, keeps_store (body a)) → keeps_store (async_for gen body).
Proof.
  intros Hgen Hbody. induction Hgen as [|step rest Hstep _ IH]; simpl.
  - apply keeps_store_ret.
  - apply keeps_store_bind; [done|]. intros a.
    apply keeps_store_bind; [apply Hbody | by intros _].
Qed.

Lemma keeps_store_get_guild_autoresponse_channels guild :
  keeps_store (get_guild_autoresponse_channels guild).
Proof.
  intros w. unfold get_guild_autoresponse_channels, on_connection, _query, with_conn,
    execute, prepare, run_statement. simpl.
  by destruct (db_connection w !! "webfic_autoresponse_settings"%string).
Qed.

Ltac keeps_store_steps :=
  repeat first
    [ apply keeps_store_ret | apply keeps_store_emit | apply keeps_store_call
    | apply keeps_store_ff_embed_factory | apply keeps_store_get_guild_autoresponse_channels
    | apply keeps_store_bind | apply keeps_store_try_except
    | progress intros
    | match goal with
      | |- keeps_store (match ?x with _ => _ end) => destruct x
      | |- keeps_store (raise _) => by intros ?
      | |- keeps_store (lift _) => by intros ?
      end ].

Lemma keeps_store_search_ao3 name_or_url : keeps_store (search_ao3 name_or_url).
Proof. unfold search_ao3, int_of_group. keeps_store_steps. Qed.

Lemma keeps_store_search_ffn name_or_url : keeps_store (search_ffn name_or_url).
Proof. unfold search_ffn. keeps_store_steps. Qed.

Lemma keeps_store_search_other url : keeps_store (search_other url).
Proof. unfold search_other. keeps_store_steps. Qed.

(** X23. Scanning and searching never write the settings store: after
    [on_message] and after [wf_search], whatever the message, the query,
    the clients' answers and the outcome, the database is the one before. *)
Theorem scanning_and_search_keep_the_store (w : world) :
  (∀ message, db_connection (on_message message w).2 = db_connection w)
  ∧ (∀ user p name_or_url,
       db_connection (wf_search user p name_or_url w).2 = db_connection w).
Proof.
  split.
  - intros message. revert w.
    change (keeps_store (on_message message)).
    unfold on_message. keeps_store_steps.
    apply keeps_store_async_for.
    + unfold get_ff_data_from_links. apply Forall_map, Forall_forall. intros m _.
      unfold resolve_match, int_of_group. keeps_store_steps;
        first [apply keeps_store_search_ao3 | apply keeps_store_search_other].
    + intros story_data. unfold respond. keeps_store_steps.
  - intros user p name_or_url. revert w.
    change (keeps_store (wf_search user p name_or_url)).
    unfold wf_search. keeps_store_steps;
      first [apply keeps_store_search_ao3 | apply keeps_store_search_ffn
            | apply keeps_store_search_other].
Qed.

(** ** The channel list of the autoresponse commands *)

Lemma find_in_list {A} (f : A → bool) (l : list A) (x : A) : find f l = Some x → x ∈ l.
Proof. intros [Hin _]%find_some. by apply list_elem_of_In. Qed.

Lemma _resolve_channel_in_guild (guild : Guild) (argument : pystr) (c : GuildChannel) :
  _resolve_channel guild argument = Some c → c ∈ guild_channels guild.
Proof.
  unfold _resolve_channel, get_by_name, get_channel.
  destruct (match_channel_id argument); [apply find_in_list|].
  destruct (match_channel_mention argument); apply find_in_list.
Qed.

Lemma omap_length_le {A B} (f : A → option B) (l : list A) :
  (length (omap f l) ≤ length l)%nat.
Proof. induction l as [|a l IH]; csimpl; [done|]. destruct (f a); simpl in *; lia. Qed.

Lemma split_on_space_app (a b cur : pystr) :
  split_on_space (a ++ 32%N :: b) cur = split_on_space a cur ++ split_on_space b [].
Proof.
  revert cur. induction a as [|c a IH]; intros cur; simpl; [done|].
  destruct (c =? 32)%N; simpl; by rewrite IH.
Qed.

Lemma digits_between_all {X} (k : pystr → pystr → option X) (ds rest : pystr) (x : X) :
  ∀ lo hi taken,
    Forall (fun c => is_digit c = true) ds →
    (lo ≤ length ds ≤ hi)%nat →
    match rest with c :: _ => is_digit c = false | [] => True end →
    k (rev taken ++ ds) rest = Some x →
    digits_between lo hi (ds ++ rest) taken k = Some x.
Proof.
  induction ds as [|d ds IH]; intros lo hi taken Hds Hlen Hrest Hk.
  - simpl in Hlen. assert (lo = 0%nat) as -> by lia.
    rewrite app_nil_r in Hk. rewrite app_nil_l.
    destruct hi, rest as [|c rest]; simpl; rewrite ?Hrest; done.
  - inversion Hds as [|? ? Hd Hds']; subst. simpl in Hlen.
    destruct hi as [|hi]; [lia|]. simpl. rewrite Hd.
    rewrite (IH (Nat.pred lo) hi (d :: taken)); [done|done|lia|done|].
    simpl. by rewrite <- app_assoc.
Qed.

Lemma digits_between_length {X} (k : pystr → pystr → option X) (x : X) :
  ∀ hi lo s taken, digits_between lo hi s taken k = Some x → (lo ≤ length s)%nat.
Proof.
  induction hi as [|hi IH]; intros lo s taken; simpl.
  - destruct lo; [lia | done].
  - destruct s as [|c s]; [destruct lo; [simpl; lia | done]|].
    destruct (is_digit c).
    + destruct (digits_between (Nat.pred lo) hi s (c :: taken) k) as [x'|] eqn:Hin.
      * intros [= ->]. apply IH in Hin. simpl. lia.
      * destruct lo; [simpl; lia | done].
    + destruct lo; [simpl; lia | done].
Qed.

(** X24. The transformer invents nothing: every channel that [transform]
    returns is a channel of the guild, and there is at most one for each
    piece of the text between blanks. *)
Theorem transform_yields_guild_channels (guild : Guild) (value : pystr) :
  (∀ c, c ∈ transform guild value → c ∈ guild_channels guild)
  ∧ (length (transform guild value) ≤ length (split_on_space value []))%nat.
Proof.
  unfold transform. split; [|apply omap_length_le].
  intros c (piece & _ & Hpiece)%list_elem_of_omap.
  by apply (_resolve_channel_in_guild _ piece).
Qed.

(** X25. An id and a mention resolve alike, and never by name: for 15 to
    20 digits [ds], both [ds] and ["<#ds>"] are looked up with
    [guild.get_channel(int(ds))]; a channel whose name is such a run of
    digits is not found under that name. *)
Theorem ids_and_mentions_resolve_alike (guild : Guild) (ds : pystr) :
  Forall (fun c => is_digit c = true) ds →
  (15 ≤ length ds ≤ 20)%nat →
  _resolve_channel guild ds = get_channel guild (int_of_digits ds)
  ∧ _resolve_channel guild (py "<#" ++ ds ++ py ">") = get_channel guild (int_of_digits ds).
Proof.
  intros Hds Hlen. unfold _resolve_channel. split.
  - assert (match_channel_id ds = Some ds) as ->; [|done].
    unfold match_channel_id. rewrite <- (app_nil_r ds) at 1.
    by apply digits_between_all.
  - assert (match_channel_id (py "<#" ++ ds ++ py ">") = None) as -> by reflexivity.
    assert (match_channel_mention (py "<#" ++ ds ++ py ">") = Some ds) as ->; [|done].
    unfold match_channel_mention. rewrite starts_with_app.
    change (drop 2 (py "<#" ++ ds ++ py ">")) with (ds ++ py ">").
    by apply digits_between_all.
Qed.

(** X26. [transform] works piece by piece: the channels of a text with a
    blank in it are those of the part before the blank followed by those
    of the part after it, so that the order of the text is kept and a
    piece that names nothing is passed over. *)
Theorem transform_piecewise (guild : Guild) (before after : pystr) :
  transform guild (before ++ py " " ++ after)
  = transform guild before ++ transform guild after.
Proof.
  unfold transform. change (py " " ++ after) with (32%N :: after).
  by rewrite split_on_space_app, omap_app.
Qed.

(** X27. A piece of fewer than 15 characters is always taken as a name:
    neither pattern can match it, so it is looked up with
    [discord.utils.get(guild.channels, name=argument)], also when it is
    made of digits. *)
Theorem short_arguments_are_names (guild : Guild) (argument : pystr) :
  (length argument < 15)%nat →
  _resolve_channel guild argument = get_by_name guild argument.
Proof.
  intros Hshort. unfold _resolve_channel.
  destruct (match_channel_id argument) as [ds|] eqn:Hid.
  { apply digits_between_length in Hid. lia. }
  destruct (match_channel_mention argument) as [ds|] eqn:Hmention; [|done].
  unfold match_channel_mention in Hmention.
  destruct (starts_with (py "<#") argument); [|done].
  apply digits_between_length in Hmention. rewrite length_drop in Hmention. lia.
Qed.

(** ** The autoresponse commands *)

(** X28. The [remove] command never answers: for every guild, every list
    of channels and every state, it acknowledges the interaction and then
    raises ([IndexError] on an empty list, else [SQLError] or
    [BindingsError]); no follow-up is sent and the store is as before. *)
Theorem remove_command_never_answers (guild : Z) (channels : list Z) (w : world) :
  ∃ e, wf_autoresponse_remove guild channels w = (Raise e, record [Response_defer] w)
       ∧ (e = IndexError ∨ e = SQLError ∨ e = BindingsError).
Proof.
  unfold wf_autoresponse_remove, mbind, M_bind, bind. rewrite emit_record.
  unfold drop_autoresponse_channels, on_connection.
  destruct channels as [|c cs].
  - exists IndexError. split; [|by left].
    change (_drop (db_connection (record [Response_defer] w)) (map _ []))
      with (Raise (A := list AutoresponseLocation) IndexError,
            db_connection (record [Response_defer] w)).
    cbn [fst snd]. by rewrite set_db_same.
  - cbn [map].
    destruct (_drop_nonempty_raises (db_connection (record [Response_defer] w))
                {| guild_id := guild; channel_id := c |}
                (map (fun c => {| guild_id := guild; channel_id := c |}) cs))
      as (e & -> & He).
    exists e. cbn [fst snd]. rewrite set_db_same. split; [done | tauto].
Qed.


End Properties.

(** * Worked scenarios *)

(** C3. A series of N = 3 works, browsed from the overview by pressing
    "next" four times: the indices are 1, 2, 2, 2. The button is switched
    off at index N - 1 = 2, in every view exactly when the index is
    [total_pages - 1], so the last work (index N = 3) is never reached
    with it; "previous" is switched off exactly at index 0. The callback
    itself does not clamp: run four times regardless of the button it
    gives the indices 1, 2, 3, 4 and fails on the fourth. *)
Theorem next_stops_one_page_early :
  (∀ self, turn_to_next_disabled (disable_page_buttons self) = true
           ↔ page_index self = total_pages self - 1)
  ∧ (∀ self, turn_to_previous_disabled (disable_page_buttons self) = true
             ↔ page_index self = 0)
  ∧ ∃ view,
      sample_view = Ok view
      ∧ total_pages view = 3
      ∧ page_index view = 0
      ∧ press_all (packages := reference_packages)
          [next_button; next_button; next_button; next_button]
          sample_owner view initial_world
        = [1; 2; 2; 2]
      ∧ turn_to_next_times (packages := reference_packages) 4 view initial_world
        = [(1, true); (2, true); (3, true); (4, false)].
Proof.
  split; [exact next_disabled_iff|].
  split; [exact previous_disabled_iff|].
  eexists. split; [vm_compute; reflexivity|].
  repeat split; vm_compute; reflexivity.
Qed.

(** The reference implementation meets the contract of [shorten]. *)
Lemma fill_line_bound chunks cur_line cur_len width cur_line' cur_len' rest :
  fill_line chunks cur_line cur_len width = (cur_line', cur_len', rest) →
  cur_len = len (concat (rev cur_line)) → cur_len <= width →
  cur_len' = len (concat (rev cur_line')) ∧ cur_len' <= width.
Proof.
  revert cur_line cur_len. induction chunks as [|c chunks IH]; intros cur_line cur_len; simpl.
  - intros [= <- <- <-]. done.
  - destruct (Z.leb_spec (cur_len + len c) width) as [Hfit|Hno].
    + intros Hrun Hlen Hle. eapply IH; [exact Hrun| |exact Hfit].
      simpl. rewrite concat_app, len_app. simpl. rewrite app_nil_r. lia.
    + intros [= <- <- <-]. done.
Qed.

Lemma place_placeholder_bound cur_line cur_len width placeholder :
  len (lstrip placeholder) <= width →
  cur_len = len (concat (rev cur_line)) →
  len (place_placeholder cur_line cur_len width placeholder) <= width.
Proof.
  intros Hp. revert cur_len. induction cur_line as [|c rest IH]; intros cur_len Hlen; simpl.
  - exact Hp.
  - destruct (negb (is_blank c) && (cur_len + len placeholder <=? width)) eqn:Hc.
    + apply andb_true_iff in Hc as [_ Hfit%Z.leb_le].
      rewrite len_app. simpl in Hlen. lia.
    + apply IH. simpl in Hlen. rewrite concat_app, len_app in Hlen.
      simpl in Hlen. rewrite app_nil_r in Hlen. lia.
Qed.

Lemma len_take_le {A} (n : nat) (l : list A) : len (take n l) <= Z.of_nat n.
Proof. unfold len. rewrite length_take. lia. Qed.

Lemma textwrap_shorten_contract : shorten_contract reference_packages.
Proof.
  intros text width placeholder. simpl. unfold textwrap_shorten.
  destruct (Z.leb_spec width 0) as [?|Hpos]; [split; [done | by left]|].
  destruct (Z.ltb_spec width (len (lstrip placeholder))) as [?|Hp]; [split; [done | by right]|].
  destruct (fill_line (chunks_of (split_words text [])) [] 0 width)
    as [[cur_line cur_len] chunks] eqn:Hfill.
  destruct (fill_line_bound _ _ _ _ _ _ _ Hfill) as [Hlen Hle]; [done | lia |].
  assert (Hgoal : ∀ (line : list pystr) (n : Z) (rest : list pystr),
             n = len (concat (rev line)) → n <= width →
             match
               (let '(cur_line, cur_len) :=
                  match line with
                  | c :: rest' => if is_blank c then (rest', n - len c) else (line, n)
                  | [] => (line, n)
                  end in
                match cur_line with
                | [] => Ok []
                | _ :: _ =>
                    match rest with
                    | [] => Ok (concat (rev cur_line))
                    | _ :: _ => Ok (place_placeholder cur_line cur_len width placeholder)
                    end
                end)
             with
             | Raise e => e = ValueError ∧ (width <= 0 ∨ width < len (lstrip placeholder))
             | Ok line => 0 < width ∧ len (lstrip placeholder) <= width ∧ len line <= width
             end).
  { intros line n rest Hn Hnw.
    assert (Hdrop : ∀ c rest', line = c :: rest' → n - len c = len (concat (rev rest'))).
    { intros c rest' ->. simpl in Hn. rewrite concat_app, len_app in Hn.
      simpl in Hn. rewrite app_nil_r in Hn. lia. }
    destruct line as [|c rest']; [simpl; change (len []) with 0; lia|].
    specialize (Hdrop c rest' eq_refl).
    pose proof (len_nonneg c).
    destruct (is_blank c).
    - destruct rest' as [|c' rest'']; [simpl; change (len []) with 0; lia|].
      destruct rest; (split; [done|split; [done|]]).
      + lia.
      + by apply place_placeholder_bound.
    - destruct rest; (split; [done|split; [done|]]).
      + lia.
      + by apply place_placeholder_bound. }
  destruct chunks as [|c rest]; [exact (Hgoal cur_line cur_len [] Hlen Hle)|].
  destruct (Z.ltb_spec width (len c)) as [Hlong|_];
    [|exact (Hgoal cur_line cur_len (c :: rest) Hlen Hle)].
  apply (Hgoal (take (Z.to_nat (width - cur_len)) c :: cur_line)
               (cur_len + len (take (Z.to_nat (width - cur_len)) c))
               (drop (Z.to_nat (width - cur_len)) c :: rest)).
  - simpl. rewrite concat_app, len_app. simpl. rewrite app_nil_r. lia.
  - pose proof (len_take_le (Z.to_nat (width - cur_len)) c).
    pose proof (len_nonneg (concat (rev cur_line))). lia.
Qed.

(** C5. The Atlas and FicHub builders put the whole description in the
    card before they measure it, so the room they leave for the shortened
    description is the budget less the other fields less the description
    itself. On an Atlas story whose description has 6000 units no card is
    produced ([ValueError], the width is not positive), and likewise on a
    FicHub story; a description of 3500 units is cut to 2227 although the
    card with all of it would take 3769 of the 6000 units. The AO3 builder,
    which measures the card without the summary, fills the budget: a
    summary of 100,000 units gives a card of 6000. *)
Theorem atlas_card_counts_description_twice :
  len (atlas_description (sample_atlas_story (words 1200))) = 6000
  ∧ create_atlas_ffn_embed_wrapped (packages := reference_packages) 0
      (sample_atlas_story (words 1200)) = Raise ValueError
  ∧ (∃ e d,
       create_atlas_ffn_embed_wrapped (packages := reference_packages) 0
         (sample_atlas_story (words 700)) = Ok e
       ∧ description e = Some d
       ∧ len (words 700) = 3500
       ∧ len d = 2227
       ∧ embed_len e - len d + len (words 700) = 3769)
  ∧ create_fichub_embed_wrapped (packages := reference_packages) 0
      (sample_fichub_story_with_description (words 1200)) = Raise ValueError
  ∧ (∃ e,
       create_ao3_work_embed_wrapped (packages := reference_packages) 0
         (sample_work_with_summary (words 20000)) = Ok e
       ∧ len (words 20000) = 100000
       ∧ embed_len e = 6000).
Proof.
  split; [vm_compute; reflexivity|].
  split; [vm_compute; reflexivity|].
  split.
  - eexists. eexists. split; [vm_compute; reflexivity|].
    repeat split; vm_compute; reflexivity.
  - split; [vm_compute; reflexivity|].
    eexists. split; [vm_compute; reflexivity|].
    split; vm_compute; reflexivity.
Qed.





(** The scenario of the specification for a work link: FicHub is asked
    first with the matched url, fails, and the AO3 client answers for id
    12345. *)
Example search_ao3_work_link :
  search_ao3 (packages := reference_packages) (clients := sample_clients)
    (py "archiveofourown.org/works/12345") initial_world
  = (Ok (Some (AO3Work (sample_work 12345))),
     record [Call_fichub_get_story_metadata (py "archiveofourown.org/works/12345");
             Log_warning msg_fichub_failed FicHubException;
             Call_ao3_get_work 12345] initial_world).
Proof. vm_compute. reflexivity. Qed.

(** C2. Provider failures that reach the caller. With clients that fail,
    [search_other] raises [FicHubException], and so does the search
    command for the platform "other" (nothing is sent). In the batch over
    a text with three links, the first (an AO3 work) resolves, the second
    (a FanFiction.Net story) makes the Atlas client raise
    [AtlasException], and the exception ends the sequence: no entry, null
    or not, is produced for the second and third link. *)
Theorem provider_failure_reaches_caller :
  search_other (clients := failing_clients)
    (py "forums.spacebattles.com/threads/x.1/") initial_world
  = (Raise FicHubException,
     record [Call_fichub_get_story_metadata (py "forums.spacebattles.com/threads/x.1/")]
       initial_world)
  ∧ wf_search (packages := reference_packages) (clients := failing_clients)
      sample_owner other (py "forums.spacebattles.com/threads/x.1/") initial_world
    = (Raise FicHubException,
       record [Response_defer;
               Call_fichub_get_story_metadata (py "forums.spacebattles.com/threads/x.1/")]
         initial_world)
  ∧ length (get_ff_data_from_links (packages := reference_packages)
              (clients := sample_clients)
              (py "archiveofourown.org/works/12345 fanfiction.net/s/2 fanfiction.net/s/42"))
    = 3%nat
  ∧ collect (get_ff_data_from_links (packages := reference_packages)
               (clients := sample_clients)
               (py "archiveofourown.org/works/12345 fanfiction.net/s/2 fanfiction.net/s/42"))
      initial_world
    = (Raise AtlasException,
       record [Call_fichub_get_story_metadata (py "archiveofourown.org/works/12345");
               Log_warning msg_fichub_failed FicHubException;
               Call_ao3_get_work 12345;
               Call_atlas_get_story_metadata 2] initial_world).
Proof. repeat split; vm_compute; reflexivity. Qed.

(** C4, counterexample. An id is extracted from the query and is 0: the
    test on the id fails as it does when there is none, the query goes to
    the title search of Atlas, whose failure reaches the caller; FicHub is
    not called. *)
Lemma search_ffn_id_zero :
  extract_fic_id (Clients := failing_clients) (py "fanfiction.net/s/0") = Some 0
  ∧ search_ffn (clients := failing_clients) (py "fanfiction.net/s/0") initial_world
    = (Raise AtlasException,
       record [Call_atlas_get_bulk_metadata (py "%fanfiction.net/s/0%") 1] initial_world)
  ∧ existsb is_fichub_call
      (new_events initial_world
         (search_ffn (clients := failing_clients) (py "fanfiction.net/s/0") initial_world).2)
    = false.
Proof. repeat split; vm_compute; reflexivity. Qed.

Lemma search_ffn_fallback_witness :
  extract_fic_id (Clients := failing_clients) (py "fanfiction.net/s/2") = Some 2
  ∧ existsb is_fichub_call
      (new_events initial_world
         (search_ffn (clients := failing_clients) (py "fanfiction.net/s/2") initial_world).2)
    = true
  ∧ (search_ffn (clients := failing_clients) (py "fanfiction.net/s/2") initial_world).1
    = Ok None.
Proof.
  pose proof (search_ffn_fallback (clients := failing_clients)
                (py "fanfiction.net/s/2") initial_world 2
                ltac:(vm_compute; reflexivity) ltac:(lia)) as (Hiff & _ & Hboth).
  split; [vm_compute; reflexivity|]. split.
  - apply Hiff. reflexivity.
  - apply Hboth; reflexivity.
Defined.


(** ** Instances of the properties that have a precondition *)

Lemma fresh_store_sorted : settings_sorted fresh_store.
Proof. intros rows [= <-]. constructor. Qed.

Lemma store_operations_keep_order_witness :
  settings_sorted fresh_store
  ∧ settings_sorted (_add fresh_store [loc 2 5; loc 1 10]).2.
Proof.
  split; [exact fresh_store_sorted|].
  apply (store_operations_keep_order fresh_store [loc 2 5; loc 1 10] 1 fresh_store_sorted).
Defined.


Lemma add_twice_is_add_once_witness :
  _add (_add fresh_store [loc 1 11; loc 1 10]).2 [loc 1 11; loc 1 10]
  = _add fresh_store [loc 1 11; loc 1 10].
Proof. apply (add_twice_is_add_once fresh_store [loc 1 11; loc 1 10] fresh_store_sorted). Defined.

Lemma detected_links_are_tagged_witness :
  ∃ m, head (finditer (STORY_WEBSITE_REGEX (packages := reference_packages)) sample_text)
       = Some m
       ∧ ∃ site, site ∈ STORY_WEBSITE_STORE (packages := reference_packages)
                 ∧ lastgroup m = Some (acronym site).
Proof.
  eexists. split; [vm_compute; reflexivity|].
  apply (detected_links_are_tagged (packages := reference_packages) sample_text).
  vm_compute. left.
Defined.


Lemma ao3_links_are_parsed_again_alike_witness :
  ∃ m m',
    nth_error (finditer (STORY_WEBSITE_REGEX (packages := reference_packages)) sample_text) 1
    = Some m
    ∧ group0 m = py "archiveofourown.org/works/12345"
    ∧ re_search (story_regex (AO3_site (packages := reference_packages))) (group0 m) = Some m'
    ∧ group0 m' = group0 m.
Proof.
  eexists.
  edestruct (ao3_links_are_parsed_again_alike
               (packages := reference_packages) (clients := sample_clients)
               sample_text _ ltac:(vm_compute; right; left) ltac:(vm_compute; reflexivity))
    as (prefix & ty & ds & m' & _ & _ & _ & _ & _ & _ & _ & _ & Hsearch & Hwhole & _).
  exists m'. split; [vm_compute; reflexivity|]. split; [vm_compute; reflexivity|].
  split; [exact Hsearch | exact Hwhole].
Defined.

Lemma every_card_within_budget_witness :
  ∃ e,
    strategy_wrapped (packages := reference_packages) 0
      (AtlasStory (sample_atlas_story (words 10))) = Ok e
    ∧ embed_len e <= 6000 - len (words 10).
Proof.
  eexists. split; [vm_compute; reflexivity|].
  apply (proj2 (every_card_within_budget textwrap_shorten_contract 0
                  (AtlasStory (sample_atlas_story (words 10))) _
                  ltac:(vm_compute; reflexivity))).
Defined.

Lemma ao3_cards_need_an_author_witness :
  create_ao3_work_embed_wrapped (packages := reference_packages) 0 sample_work_without_authors
  = Raise IndexError
  ∧ create_ao3_series_embed_wrapped (packages := reference_packages) 0
      sample_series_without_creators
    = Raise IndexError.
Proof.
  destruct (ao3_cards_need_an_author textwrap_shorten_contract 0) as [Hwork Hseries].
  split; [apply Hwork | apply Hseries]; reflexivity.
Defined.

Lemma fichub_card_statistics_witness :
  create_fichub_embed_wrapped (packages := reference_packages) 0 sample_fichub_ffn_story
  = Raise KeyError.
Proof.
  apply (proj1 (fichub_card_statistics textwrap_shorten_contract 0 sample_fichub_ffn_story)).
  - vm_compute. reflexivity.
  - left. vm_compute. reflexivity.
Defined.

Lemma memoised_cards_are_built_cards_witness :
  ∃ e w1,
    ff_embed_factory (packages := reference_packages)
      (Some (AO3Work (sample_work 1))) initial_world = (Ok e, w1)
    ∧ (∃ now, strategy_wrapped (packages := reference_packages) now (AO3Work (sample_work 1))
              = Ok e)
    ∧ cache_sound (packages := reference_packages) w1.
Proof.
  eexists. eexists. split; [vm_compute; reflexivity|].
  apply (memoised_cards_are_built_cards (packages := reference_packages)
           (AO3Work (sample_work 1)) initial_world).
  - repeat split; constructor.
  - vm_compute. reflexivity.
Defined.

Lemma details_field_is_bounded_witness :
  ∃ e f,
    strategy_wrapped (packages := reference_packages) 0 (AO3Work (sample_work 1)) = Ok e
    ∧ fields e !! 2%nat = Some f
    ∧ len (field_value f) <= 306.
Proof.
  eexists. eexists. split; [vm_compute; reflexivity|]. split; [vm_compute; reflexivity|].
  apply (details_field_is_bounded textwrap_shorten_contract 0 (AO3Work (sample_work 1)) _ _
           ltac:(vm_compute; reflexivity) ltac:(discriminate) ltac:(vm_compute; reflexivity)).
Defined.

Lemma view_creation_witness :
  ∃ view,
    sample_view = Ok view
    ∧ page_index view = 0
    ∧ length (select_page_options view) = 4%nat
    ∧ turn_to_previous_disabled view = true.
Proof.
  destruct (proj1 (view_creation textwrap_shorten_contract sample_owner sample_series)
              ltac:(simpl; lia))
    as (view & Hview & _ & _ & Hpage & Hoptions & Hprevious & _).
  exists view. repeat split; assumption.
Defined.

Lemma press_is_guarded_witness :
  ∃ view,
    sample_view = Ok view
    ∧ (press (packages := reference_packages) next_button (sample_owner + 1) view
         initial_world).1.2 = view.
Proof.
  eexists. split; [vm_compute; reflexivity|].
  apply (press_is_guarded (packages := reference_packages) next_button (sample_owner + 1)).
  right. right. unfold sample_owner. simpl. lia.
Defined.

Lemma presses_stay_below_last_page_witness :
  ∃ view view' w',
    sample_view = Ok view
    ∧ press (packages := reference_packages) next_button sample_owner view initial_world
      = (Ok tt, view', w')
    ∧ 0 <= page_index view' <= total_pages view' - 1.
Proof.
  eexists. eexists. eexists. split; [vm_compute; reflexivity|].
  lazymatch goal with
  | |- press _ _ ?view _ = _ ∧ _ =>
      pose proof (presses_stay_below_last_page (packages := reference_packages)
                    next_button sample_owner view _ initial_world _
                    ltac:(vm_compute; split; discriminate)
                    ltac:(vm_compute; reflexivity) ltac:(vm_compute; reflexivity)
                    ltac:(vm_compute; reflexivity)) as (Hrange & _)
  end.
  split; [vm_compute; reflexivity | exact Hrange].
Defined.



Lemma search_ffn_title_search_witness :
  extract_fic_id (Clients := failing_clients) (py "a title") = None
  ∧ search_ffn (clients := failing_clients) (py "a title") initial_world
    = (Raise AtlasException,
       record [Call_atlas_get_bulk_metadata (py "%a title%") 1] initial_world).
Proof.
  split; [vm_compute; reflexivity|].
  rewrite (search_ffn_title_search (clients := failing_clients) (py "a title") initial_world
             ltac:(left; vm_compute; reflexivity)).
  reflexivity.
Defined.

Lemma ids_and_mentions_resolve_alike_witness :
  _resolve_channel sample_guild (py "<#223456789012345678>")
  = Some {| gchannel_id := 223456789012345678; gchannel_name := py "fics" |}.
Proof.
  pose proof (proj2 (ids_and_mentions_resolve_alike sample_guild (py "223456789012345678")
                       ltac:(repeat constructor) ltac:(simpl; lia))) as Hmention.
  etransitivity; [exact Hmention|]. vm_compute. reflexivity.
Defined.

Lemma short_arguments_are_names_witness :
  _resolve_channel sample_guild (py "12345") = get_by_name sample_guild (py "12345").
Proof. apply (short_arguments_are_names sample_guild (py "12345")). simpl. lia. Defined.

